(** * The retrieval-augmented assistant of as-we-may-think

    A shallow embedding of [backend/llm_assistant.py] (class [LLMAssistant])
    and of the [/llm/ask] endpoint of [backend/main.py], with the properties
    the design document states about them.

    Conventions of the embedding.
    - A Python [str] is the [string] of the bytes of its UTF-8 encoding.  An
      ASCII text occurs in a [str] exactly where its bytes occur in the
      encoding, so [in], [startswith], [endswith] and the split at a slash
      are those of the bytes.
    - Python dicts ([params], the keyword arguments of the engine, the
      documents) are [gmap string _].
    - Embedding vectors are lists of rationals and distances are computed
      exactly; the rounding of 32-bit floats is outside the model.
    - The three external collaborators (the sentence encoder, the llama.cpp
      engine, the file system) are black boxes: functions stored in the
      objects that wrap them, or section variables. *)

From Stdlib Require Import ZArith QArith Bool Ascii String List Lia.
From stdpp Require Import base option list sorting strings pretty gmap.

Local Open Scope string_scope.
Local Open Scope Z_scope.

(** ** Strings *)

Module Str.

(** [c.lower()] on one ASCII character. *)
Definition lower_ascii (c : ascii) : ascii :=
  let n := N_of_ascii c in
  if ((65 <=? n) && (n <=? 90))%N then ascii_of_N (n + 32) else c.

(** The byte with the given value. *)
Definition byte (n : N) : ascii := ascii_of_N n.

(** [s.lower()], on the UTF-8 encoding of [s].  Three kinds of characters
    have a lower-case form that holds an ASCII character: the letters A to Z;
    U+0130 (bytes C4 B0), whose lower-case form is i followed by U+0307
    (bytes CC 87); and U+212A, the Kelvin sign (bytes E2 84 AA), whose
    lower-case form is k.  They are mapped as Python maps them.  Every other
    character has a lower-case form made of non-ASCII characters only; it is
    left as it is written, which changes nothing to where an ASCII text
    occurs in the result, and that is all the rules below ask of it. *)
Fixpoint lower (s : string) : string :=
  match s with
  | EmptyString => EmptyString
  | String c r =>
      match r with
      | EmptyString => String (lower_ascii c) EmptyString
      | String c2 r2 =>
          if Ascii.eqb c (byte 196) && Ascii.eqb c2 (byte 176) then
            String "i" (String (byte 204) (String (byte 135) (lower r2)))
          else
            match r2 with
            | EmptyString => String (lower_ascii c) (lower r)
            | String c3 r3 =>
                if Ascii.eqb c (byte 226) && Ascii.eqb c2 (byte 132)
                   && Ascii.eqb c3 (byte 170)
                then String "k" (lower r3)
                else String (lower_ascii c) (lower r)
            end
      end
  end.

(** [s.startswith(p)] *)
Fixpoint startswith (p s : string) : bool :=
  match p, s with
  | EmptyString, _ => true
  | String a p', String b s' => Ascii.eqb a b && startswith p' s'
  | String _ _, EmptyString => false
  end.

(** [p in s] on strings: [p] occurs in [s] as a contiguous substring. *)
Fixpoint contains (p s : string) : bool :=
  startswith p s ||
  match s with
  | EmptyString => false
  | String _ s' => contains p s'
  end.

(** [os.path.basename] on POSIX paths: what follows the last slash. *)
Fixpoint basename (p : string) : string :=
  match p with
  | EmptyString => EmptyString
  | String c r =>
      if Ascii.eqb c "/"%char then basename r
      else if contains "/" r then basename r else p
  end.

(** [any(name in s for name in names)] *)
Definition contains_any (names : list string) (s : string) : bool :=
  existsb (fun name => contains name s) names.

End Str.

(** ** Model parameters derived from the file name *)

(** The keyword arguments handed to the engine's constructor. *)
Abbreviation kwargs := (gmap string Z).

Definition default_params : kwargs :=
  <["n_ctx" := 2048]> (<["n_threads" := 4]> (<["n_gpu_layers" := 0]> ∅)).

(** [LLMAssistant._get_model_params] *)
Definition _get_model_params (model_path : string) : kwargs :=
  let filename := Str.lower (Str.basename model_path) in
  let params := default_params in
  let params :=
    if Str.contains_any ["llama"; "meta-llama"] filename then
      if Str.contains "3" filename then <["n_ctx" := 4096]> params
      else if Str.contains "2" filename then <["n_ctx" := 4096]> params
      else params
    else if Str.contains "mistral" filename then <["n_ctx" := 4096]> params
    else if Str.contains "phi" filename then
      if Str.contains "mini" filename then <["n_ctx" := 4096]> params
      else <["n_ctx" := 2048]> params
    else if Str.contains "gemma" filename then <["n_ctx" := 4096]> params
    else params in
  if Str.contains "q4_0" filename || Str.contains "q4_k_m" filename
  then <["n_batch" := 512]> params
  else params.

(** *** The rules, read off the file name *)

(** The family markers the rules look for, in the order they are tried. *)
Definition family_markers : list string := ["llama"; "mistral"; "phi"; "gemma"].

(** The context window the first matching family rule selects. *)
Definition family_n_ctx (filename : string) : Z :=
  if Str.contains "llama" filename then
    if Str.contains "3" filename || Str.contains "2" filename then 4096 else 2048
  else if Str.contains "mistral" filename then 4096
  else if Str.contains "phi" filename then
    if Str.contains "mini" filename then 4096 else 2048
  else if Str.contains "gemma" filename then 4096
  else 2048.

Definition is_4bit (filename : string) : bool :=
  Str.contains "q4_0" filename || Str.contains "q4_k_m" filename.

(** ** Python values, exceptions and sequences *)

(** The exceptions (all subclasses of [Exception]) that the modelled code
    and its collaborators raise; [exn_str] is [str(e)]. *)
Inductive exn : Type :=
| IndexError (msg : string)
| AssertionError (msg : string)
| EngineError (msg : string).

Definition exn_str (e : exn) : string :=
  match e with
  | IndexError msg | AssertionError msg | EngineError msg => msg
  end.

(** The outcome of a call: a value, or a raised exception. *)
Inductive result (A : Type) : Type :=
| Ok (a : A)
| Raise (e : exn).
Arguments Ok {A} a.
Arguments Raise {A} e.

#[global] Instance result_ret : MRet result := fun _ a => Ok a.
#[global] Instance result_bind : MBind result := fun _ _ f m =>
  match m with
  | Ok a => f a
  | Raise e => Raise e
  end.

Definition raises {A : Type} (r : result A) : Prop :=
  match r with
  | Ok _ => False
  | Raise _ => True
  end.

(** The values stored in a document: a string, or [None]. *)
Inductive pyval : Type :=
| PStr (s : string)
| PNone.

(** How an f-string renders a value. *)
Definition py_format (v : pyval) : string :=
  match v with
  | PStr s => s
  | PNone => "None"
  end.

(** A document is a dict; the assistant reads its ['title'] and ['content']. *)
Abbreviation Document := (gmap string pyval).

(** [doc.get(key, default)] *)
Definition dict_get (doc : Document) (key : string) (default : string) : pyval :=
  match doc !! key with
  | Some v => v
  | None => PStr default
  end.

(** [l[i]] on a Python list: a negative index counts from the end, and an
    index outside [-len(l) .. len(l)-1] raises [IndexError]. *)
Definition py_getitem {A : Type} (l : list A) (i : Z) : result A :=
  let n := Z.of_nat (length l) in
  let pos := if i <? 0 then n + i else i in
  if (0 <=? pos) && (pos <? n) then
    match l !! Z.to_nat pos with
    | Some a => Ok a
    | None => Raise (IndexError "list index out of range")
    end
  else Raise (IndexError "list index out of range").

Definition newline : string := String (ascii_of_nat 10) EmptyString.

(** ** The sentence encoder and its arrays *)

Abbreviation vector := (list Q).

(** A two-dimensional array as the list of its rows.  An array built from
    no rows at all has shape [(0,)]: it has no second axis. *)
Abbreviation ndarray := (list vector).

(** [a.shape[1]] *)
Definition shape_1 (a : ndarray) : result nat :=
  match a with
  | [] => Raise (IndexError "tuple index out of range")
  | row :: _ => Ok (length row)
  end.

(** The encoder is a black box that maps a text to a vector of a fixed
    dimension, the same text always to the same vector. *)
Record SentenceTransformer : Type := {
  encode_one : string -> vector
}.

(** [embedding_model.encode(texts)]: one row per text. *)
Definition encode (m : SentenceTransformer) (texts : list string) : ndarray :=
  map (encode_one m) texts.

(** ** The flat L2 index (faiss.IndexFlatL2) *)

Module faiss.

Record IndexFlatL2 : Type := {
  d : nat;
  xb : list vector
}.

(** [faiss.IndexFlatL2(dimension)] *)
Definition new (dimension : nat) : IndexFlatL2 :=
  {| d := dimension; xb := [] |}.

(** [index.add(x)] *)
Definition add (ix : IndexFlatL2) (x : ndarray) : IndexFlatL2 :=
  {| d := d ix; xb := (xb ix ++ x)%list |}.

Definition ntotal (ix : IndexFlatL2) : nat := length (xb ix).

(** Squared Euclidean distance. *)
Fixpoint l2sqr (x y : vector) : Q :=
  match x, y with
  | a :: x', b :: y' => ((a - b) * (a - b) + l2sqr x' y')%Q
  | _, _ => 0%Q
  end.

(** Candidates are (distance, label) pairs; [insert] keeps a candidate in
    front of the first one that is not nearer, so that among equal
    distances the smaller label comes first. *)
Fixpoint insert (c : Q * nat) (cs : list (Q * nat)) : list (Q * nat) :=
  match cs with
  | [] => [c]
  | c' :: cs' =>
      if Qle_bool (fst c) (fst c') then c :: cs else c' :: insert c cs'
  end.

Definition sort (cs : list (Q * nat)) : list (Q * nat) :=
  foldr insert [] cs.

(** The candidates of one query, in storage order. *)
Definition candidates (ix : IndexFlatL2) (q : vector) : list (Q * nat) :=
  imap (fun i x => (l2sqr q x, i)) (xb ix).

(** The [k] nearest of one query: distances and labels, nearest first;
    when fewer than [k] vectors are stored the row is completed with
    label [-1] (and no distance, [None] here). *)
Definition knn (ix : IndexFlatL2) (k : nat) (q : vector)
  : list (option Q) * list Z :=
  let best := take k (sort (candidates ix q)) in
  let missing := (k - length best)%nat in
  ((map (fun c => Some (fst c)) best ++ replicate missing None)%list,
   (map (fun c => Z.of_nat (snd c)) best ++ replicate missing (-1))%list).

(** [index.search(xq, k)]: one row of distances and one row of labels per
    query; the wrapper asserts [k > 0]. *)
Definition search (ix : IndexFlatL2) (xq : ndarray) (k : Z)
  : result (list (list (option Q)) * list (list Z)) :=
  if 0 <? k then
    let rows := map (knn ix (Z.to_nat k)) xq in
    Ok (map fst rows, map snd rows)
  else Raise (AssertionError "").

End faiss.

(** ** The generative model (llama_cpp.Llama) *)

(** The arguments of one completion call. *)
Record CompletionRequest : Type := {
  req_prompt : string;
  req_max_tokens : option Z;
  req_temperature : Q;
  req_repeat_penalty : Q;
  req_echo : bool
}.

(** A completion: the texts of its choices
    ([response["choices"][i]["text"]]). *)
Record Completion : Type := {
  choices : list string
}.

(** A loaded model: what it was loaded from and with, and the black box
    that answers a completion request or raises. *)
Record Llama : Type := {
  llama_model_path : string;
  llama_kwargs : kwargs;
  llama_call : CompletionRequest -> result Completion
}.

(** What the assistant does to the outside world, in order. *)
Inductive event : Type :=
| EvLoad (model_path : string) (params : kwargs)
| EvComplete (req : CompletionRequest).

(** ** The assistant *)

Record LLMAssistant : Type := {
  model_path : option string;
  model : option Llama;
  embedding_model : SentenceTransformer;
  index : option faiss.IndexFlatL2;
  documents : list Document
}.

Definition set_model_path_field (self : LLMAssistant) (p : option string) : LLMAssistant :=
  {| model_path := p; model := model self;
     embedding_model := embedding_model self;
     index := index self; documents := documents self |}.

Definition set_model (self : LLMAssistant) (m : option Llama) : LLMAssistant :=
  {| model_path := model_path self; model := m;
     embedding_model := embedding_model self;
     index := index self; documents := documents self |}.

Definition set_index (self : LLMAssistant) (ix : option faiss.IndexFlatL2) : LLMAssistant :=
  {| model_path := model_path self; model := model self;
     embedding_model := embedding_model self;
     index := ix; documents := documents self |}.

Definition set_documents (self : LLMAssistant) (docs : list Document) : LLMAssistant :=
  {| model_path := model_path self; model := model self;
     embedding_model := embedding_model self;
     index := index self; documents := docs |}.

(** The retry of [_load_model] passes these keyword arguments and no others;
    the engine's own default for [n_gpu_layers] is 0. *)
Definition minimal_params : kwargs :=
  <["n_ctx" := 2048]> (<["n_threads" := 1]> ∅).

Definition model_not_loaded : string :=
  "Model not loaded. Please set a valid model path first.".

(** The answer and its supporting documents ([LLMResponse] in main.py, the
    dict returned by [answer_with_context]). *)
Record LLMResponse : Type := {
  answer : string;
  sources : list Document
}.

Section Assistant.

(** The world outside the process: which paths exist, and what the
    engine's constructor does with a file and keyword arguments. *)
Variable os_path_exists : string -> bool.
Variable Llama_new : string -> kwargs -> result Llama.

(** [LLMAssistant._load_model]: the returned pair, the assistant
    afterwards, and the constructor calls made. *)
Definition _load_model (self : LLMAssistant)
  : (bool * string) * LLMAssistant * list event :=
  match model_path self with
  | None => ((false, "Model path 'None' does not exist"), self, [])
  | Some path =>
      if String.eqb path "" || negb (os_path_exists path) then
        ((false, "Model path '" ++ path ++ "' does not exist"), self, [])
      else
        let params := _get_model_params path in
        match Llama_new path params with
        | Ok m => ((true, ""), set_model self (Some m), [EvLoad path params])
        | Raise e =>
            let error_msg := "Error loading model: " ++ exn_str e in
            match Llama_new path minimal_params with
            | Ok m =>
                ((true, ""), set_model self (Some m),
                 [EvLoad path params; EvLoad path minimal_params])
            | Raise e2 =>
                ((false, error_msg), self,
                 [EvLoad path params; EvLoad path minimal_params])
            end
        end
  end.

(** [LLMAssistant.set_model_path] *)
Definition set_model_path (self : LLMAssistant) (path : string)
  : (bool * string) * LLMAssistant * list event :=
  _load_model (set_model_path_field self (Some path)).

End Assistant.

(** The text that is embedded for a document. *)
Definition document_text (doc : Document) : string :=
  py_format (dict_get doc "title" "") ++ newline ++
  py_format (dict_get doc "content" "").

(** [LLMAssistant.index_documents]: the count (or the exception) and the
    assistant afterwards. *)
Definition index_documents (self : LLMAssistant) (docs : list Document)
  : result nat * LLMAssistant :=
  let self := set_documents self docs in
  let texts := map document_text docs in
  let embeddings := encode (embedding_model self) texts in
  match shape_1 embeddings with
  | Raise e => (Raise e, self)
  | Ok dimension =>
      let ix := faiss.add (faiss.new dimension) embeddings in
      (Ok (length docs), set_index self (Some ix))
  end.

(** The loop of [search_documents] over the labels of the first query. *)
Fixpoint collect (docs : list Document) (indices : list Z)
    (results : list Document) : result (list Document) :=
  match indices with
  | [] => Ok results
  | idx :: rest =>
      if idx <? Z.of_nat (length docs) then
        doc ← py_getitem docs idx;
        collect docs rest (results ++ [doc])%list
      else collect docs rest results
  end.

(** [LLMAssistant.search_documents] *)
Definition search_documents (self : LLMAssistant) (query : string) (top_k : Z)
  : result (list Document) :=
  match index self, documents self with
  | None, _ | _, [] => Ok []
  | Some ix, _ :: _ =>
      let query_vector := encode (embedding_model self) [query] in
      '(distances, indices) ← faiss.search ix query_vector top_k;
      row ← py_getitem indices 0;
      collect (documents self) row []
  end.

(** [LLMAssistant.generate_response]: the text returned and the completion
    calls made. *)
Definition generate_response (self : LLMAssistant) (prompt : string)
    (max_tokens : option Z) : string * list event :=
  match model self with
  | None => (model_not_loaded, [])
  | Some m =>
      let req := {| req_prompt := prompt; req_max_tokens := max_tokens;
                    req_temperature := 7 # 10; req_repeat_penalty := 11 # 10;
                    req_echo := false |} in
      let text :=
        match response ← llama_call m req; py_getitem (choices response) 0 with
        | Ok generated_text => generated_text
        | Raise e => "Error generating response: " ++ exn_str e
        end in
      (text, [EvComplete req])
  end.

(** The context block of the prompt, document numbers starting at [i+1]. *)
Fixpoint context_from (i : nat) (docs : list Document) : string :=
  match docs with
  | [] => ""
  | doc :: rest =>
      "Document " ++ pretty (S i) ++ ":" ++ newline ++
      "Title: " ++ py_format (dict_get doc "title" "Untitled") ++ newline ++
      "Content: " ++ py_format (dict_get doc "content" "") ++ newline ++ newline ++
      context_from (S i) rest
  end.

Definition build_prompt (context query : string) : string :=
  "<|system|>You are the Memex, a helpful assistant that answers queries in brief summaries.<|end|>"
  ++ newline ++
  "        <|user|>Based on the following information:" ++ newline ++ newline ++
  context ++ newline ++ newline ++
  "Answer this question: " ++ query ++ "<|end|>" ++ newline ++ newline ++
  "<|assistant|>Answer:".

(** [LLMAssistant.answer_with_context] *)
Definition answer_with_context (self : LLMAssistant) (query : string)
    (max_tokens : option Z) : result LLMResponse * list event :=
  match search_documents self query 3 with
  | Raise e => (Raise e, [])
  | Ok relevant_docs =>
      let context := context_from 0 relevant_docs in
      let prompt := build_prompt context query in
      let '(answer, evs) := generate_response self prompt max_tokens in
      (Ok {| answer := answer; sources := relevant_docs |}, evs)
  end.

(** ** The [/llm/ask] endpoint (main.py) *)

Record Note : Type := {
  note_id : string;
  note_title : string;
  note_content : string;
  note_created_at : option string
}.

Record LLMQuery : Type := {
  query : string;
  max_tokens : option Z
}.

Definition pyval_of_option (o : option string) : pyval :=
  match o with
  | Some s => PStr s
  | None => PNone
  end.

(** The dict built from a note. *)
Definition document_of_note (note : Note) : Document :=
  <["id" := PStr (note_id note)]>
  (<["title" := PStr (note_title note)]>
  (<["content" := PStr (note_content note)]>
  (<["created_at" := pyval_of_option (note_created_at note)]> ∅))).

Definition no_model_loaded : string :=
  "No LLM model is currently loaded. Please upload a model first.".

(** [ask_llm]: the process-wide assistant is passed in and out; [notes] is
    what the document store returns for [select(Note)]. *)
Definition ask_llm (llm_assistant : LLMAssistant) (notes : list Note)
    (q : LLMQuery) : result LLMResponse * LLMAssistant * list event :=
  let documents := map document_of_note notes in
  match index_documents llm_assistant documents with
  | (Raise e, llm_assistant) => (Raise e, llm_assistant, [])
  | (Ok _, llm_assistant) =>
      match model llm_assistant with
      | Some _ =>
          let '(response, evs) :=
            answer_with_context llm_assistant (query q) (max_tokens q) in
          (response, llm_assistant, evs)
      | None =>
          match search_documents llm_assistant (query q) 5 with
          | Raise e => (Raise e, llm_assistant, [])
          | Ok sources =>
              (Ok {| answer := no_model_loaded; sources := sources |},
               llm_assistant, [])
          end
      end
  end.

(** ** The order of the results *)

(** [nearer c c']: candidate [c] has to come before [c'], because it is
    strictly closer, or as close and stored earlier. *)
Definition nearer (c c' : Q * nat) : Prop :=
  (fst c < fst c')%Q \/ ((fst c == fst c')%Q /\ (snd c < snd c')%nat).

(** Candidates in storage order. *)
Definition stored_before (c c' : Q * nat) : Prop := (snd c < snd c')%nat.

(** The squared distance of a document to a query, as the assistant
    computes it. *)
Definition distance_to (m : SentenceTransformer) (query : string)
    (doc : Document) : Q :=
  faiss.l2sqr (encode_one m query) (encode_one m (document_text doc)).

(** ** Small worlds to run the assistant in *)

Module Fixture.

(** An encoder of dimension one: the length of the text. *)
Definition len_encoder : SentenceTransformer :=
  {| encode_one := fun s => [inject_Z (Z.of_nat (String.length s))] |}.

Definition note (title content : string) : Note :=
  {| note_id := title; note_title := title; note_content := content;
     note_created_at := None |}.

(** Files exist under [/models/] and nowhere else. *)
Definition models_dir_only (path : string) : bool :=
  Str.startswith "/models/" path.

(** A model that always answers [text]. *)
Definition constant_llama (text path : string) (kw : kwargs) : Llama :=
  {| llama_model_path := path; llama_kwargs := kw;
     llama_call := fun _ => Ok {| choices := [text] |} |}.

(** A model whose every completion fails. *)
Definition failing_llama (path : string) (kw : kwargs) : Llama :=
  {| llama_model_path := path; llama_kwargs := kw;
     llama_call := fun _ => Raise (EngineError "llama_decode returned -1") |}.

(** An engine that cannot allocate for more than one thread. *)
Definition small_engine (path : string) (kw : kwargs) : result Llama :=
  match kw !! "n_threads" with
  | Some 1 => Ok (constant_llama "42" path kw)
  | _ => Raise (EngineError "failed to create llama_context")
  end.

(** An engine that rejects every file. *)
Definition broken_engine (path : string) (kw : kwargs) : result Llama :=
  Raise (EngineError ("invalid magic in " ++ path)).

(** Two notes; with [len_encoder] the text of [note_b] is the closer one
    to the query ["b"], and [note_b] is stored last. *)
Definition note_a : Note := note "A" "aaaa".
Definition note_b : Note := note "B" "b".
Definition doc_a : Document := document_of_note note_a.
Definition doc_b : Document := document_of_note note_b.

(** The assistant as [__init__] leaves it when no model path is given. *)
Definition fresh : LLMAssistant :=
  {| model_path := None; model := None; embedding_model := len_encoder;
     index := None; documents := [] |}.

End Fixture.

(** ** More of Python's strings and paths *)

Module PyStr.

(** The white space of Python ([str.isspace]), by the bytes of its UTF-8
    encoding.  In one byte: tab to carriage return, the four separators 28 to
    31, and the space. *)
Definition is_space (c : ascii) : bool :=
  let n := N_of_ascii c in
  (((9 <=? n) && (n <=? 13)) || ((28 <=? n) && (n <=? 32)))%N.

(** In two bytes: U+0085 (C2 85) and U+00A0 (C2 A0). *)
Definition is_space2 (c1 c2 : ascii) : bool :=
  let a := N_of_ascii c1 in
  let b := N_of_ascii c2 in
  ((a =? 194) && ((b =? 133) || (b =? 160)))%N.

(** In three bytes: U+1680 (E1 9A 80); U+2000 to U+200A, U+2028, U+2029 and
    U+202F (E2 80 80 to 8A, A8, A9, AF); U+205F (E2 81 9F); U+3000
    (E3 80 80). *)
Definition is_space3 (c1 c2 c3 : ascii) : bool :=
  let a := N_of_ascii c1 in
  let b := N_of_ascii c2 in
  let c := N_of_ascii c3 in
  (((a =? 225) && ((b =? 154) && (c =? 128)))
   || ((a =? 226) &&
       (((b =? 128) &&
         (((128 <=? c) && (c <=? 138)) || (c =? 168) || (c =? 169) || (c =? 175)))
        || ((b =? 129) && (c =? 159))))
   || ((a =? 227) && ((b =? 128) && (c =? 128))))%N.

(** What follows the white space character [s] begins with, if it begins
    with one. *)
Definition space_prefix (s : string) : option string :=
  match s with
  | EmptyString => None
  | String c1 r1 =>
      if is_space c1 then Some r1
      else
        match r1 with
        | EmptyString => None
        | String c2 r2 =>
            if is_space2 c1 c2 then Some r2
            else
              match r2 with
              | EmptyString => None
              | String c3 r3 => if is_space3 c1 c2 c3 then Some r3 else None
              end
        end
  end.

(** [s.lstrip()] *)
Fixpoint lstrip (s : string) : string :=
  match s with
  | EmptyString => EmptyString
  | String c1 r1 =>
      if is_space c1 then lstrip r1
      else
        match r1 with
        | EmptyString => s
        | String c2 r2 =>
            if is_space2 c1 c2 then lstrip r2
            else
              match r2 with
              | EmptyString => s
              | String c3 r3 => if is_space3 c1 c2 c3 then lstrip r3 else s
              end
        end
  end.

(** [s.rstrip()]: the text up to the point from which only white space
    follows. *)
Fixpoint rstrip (s : string) : string :=
  match s with
  | EmptyString => EmptyString
  | String c r =>
      if String.eqb (lstrip s) EmptyString then EmptyString
      else String c (rstrip r)
  end.

(** [s.strip()] *)
Definition strip (s : string) : string := rstrip (lstrip s).

(** [s.endswith(suffix)] *)
Fixpoint endswith (suffix s : string) : bool :=
  String.eqb s suffix ||
  match s with
  | EmptyString => false
  | String _ r => endswith suffix r
  end.

End PyStr.

Module os_path.

(** [os.path.join(a, b)] on POSIX paths. *)
Definition join (a b : string) : string :=
  if Str.startswith "/" b then b
  else if String.eqb a "" || PyStr.endswith "/" a then a ++ b
  else a ++ "/" ++ b.

End os_path.

(** ** Construction of the assistant *)

Section Construction.

Variable os_path_exists : string -> bool.
Variable Llama_new : string -> kwargs -> result Llama.


End Construction.

(** ** Validation of notes (main.py, [NoteBase]) *)

(** A validator returns the value to store, or raises [ValueError]. *)
Inductive validated : Type :=
| Valid (v : string)
| ValueError (msg : string).

(** [NoteBase.title_must_not_be_empty] *)
Definition title_must_not_be_empty (v : string) : validated :=
  if String.eqb v "" || String.eqb (PyStr.strip v) "" then
    ValueError "Title cannot be empty"
  else Valid (PyStr.strip v).

(** [NoteBase.content_must_not_be_empty] *)
Definition content_must_not_be_empty (v : string) : validated :=
  if String.eqb v "" || String.eqb (PyStr.strip v) "" then
    ValueError "Content cannot be empty"
  else Valid (PyStr.strip v).

(** ** The model endpoints (main.py) *)

(** What an endpoint answers: a body, or [HTTPException]. *)
Inductive http (A : Type) : Type :=
| Http_ok (body : A)
| HTTPException (status_code : Z) (detail : string).
Arguments Http_ok {A} body.
Arguments HTTPException {A} status_code detail.

(** What an endpoint asks of the file system: the calls it makes, whether
    they succeed or not. *)
Inductive fs_effect : Type :=
| FsWrite (path : string) (content : string)
| FsRemove (path : string).

(** What a call into the file system ends in: it returns, or it raises
    ([OSError] for a missing directory, a directory in the place of a file or
    missing rights, [ValueError] for a path with a NUL character); [error]
    is the text of the exception. *)
Inductive os_outcome : Type :=
| OsDone
| OsRaise (error : string).

(** What serving a request ends in: the answer of the endpoint (the value it
    returns or the [HTTPException] it raises), or an exception that the
    endpoint lets through. *)
Inductive served (A : Type) : Type :=
| Served (answer : http A)
| Uncaught (error : string).
Arguments Served {A} answer.
Arguments Uncaught {A} error.

Module ModelInfo.
Record t : Type := {
  name : string;
  path : string;
  is_active : bool
}.
End ModelInfo.

Module UploadFile.
Record t : Type := {
  filename : string;
  file : string
}.
End UploadFile.

Section ModelEndpoints.

(** The directory of the models, the paths that exist, the listing of a
    directory, and the engine's constructor. *)
Variable MODELS_DIR : string.
Variable os_path_exists : string -> bool.
Variable os_listdir : string -> list string.
Variable Llama_new : string -> kwargs -> result Llama.

(** [os_write path content] is [open(path, "wb")] followed by the copy of
    [content] into the file; [os_remove path] is [os.remove(path)]. *)
Variable os_write : string -> string -> os_outcome.
Variable os_remove : string -> os_outcome.

(** The loop of [list_models] over the directory listing. *)
Fixpoint list_models_loop (active_model : option string)
    (listing : list string) : list ModelInfo.t :=
  match listing with
  | [] => []
  | filename :: rest =>
      if PyStr.endswith ".gguf" filename then
        {| ModelInfo.name := filename;
           ModelInfo.path := os_path.join MODELS_DIR filename;
           ModelInfo.is_active :=
             match active_model with
             | Some active => String.eqb filename active
             | None => false
             end |} :: list_models_loop active_model rest
      else list_models_loop active_model rest
  end.

(** [list_models] *)
Definition list_models (llm_assistant : LLMAssistant) : list ModelInfo.t :=
  let active_model :=
    match model_path llm_assistant with
    | Some p => if String.eqb p "" then None else Some (Str.basename p)
    | None => None
    end in
  if os_path_exists MODELS_DIR then
    list_models_loop active_model (os_listdir MODELS_DIR)
  else [].

(** [upload_model]: what the request ends in (the answer holds the message
    and the path) and the write asked for.  The answer is built after the
    [with] block only, so an exception of [open] or of the copy leaves the
    endpoint. *)
Definition upload_model (file : UploadFile.t) (model_name : string)
  : served (string * string) * list fs_effect :=
  if negb (PyStr.endswith ".gguf" (UploadFile.filename file)) then
    (Served
       (HTTPException 400 "Invalid model file. Only .gguf files are supported."),
     [])
  else
    let save_name :=
      if String.eqb model_name "" then UploadFile.filename file
      else PyStr.strip model_name in
    let save_name :=
      if negb (PyStr.endswith ".gguf" save_name) then save_name ++ ".gguf"
      else save_name in
    let save_path := os_path.join MODELS_DIR save_name in
    (match os_write save_path (UploadFile.file file) with
     | OsRaise error => Uncaught error
     | OsDone =>
         Served (Http_ok ("Model " ++ save_name ++ " uploaded successfully",
                          save_path))
     end,
     [FsWrite save_path (UploadFile.file file)]).

(** [activate_model]: the answer, the assistant afterwards, and the
    constructor calls made. *)
Definition activate_model (llm_assistant : LLMAssistant) (model_name : string)
  : http string * LLMAssistant * list event :=
  let path := os_path.join MODELS_DIR model_name in
  if negb (os_path_exists path) then
    (HTTPException 404 ("Model " ++ model_name ++ " not found"),
     llm_assistant, [])
  else
    let '((success, error_msg), llm_assistant, calls) :=
      set_model_path os_path_exists Llama_new llm_assistant path in
    if negb success then (HTTPException 500 error_msg, llm_assistant, calls)
    else (Http_ok ("Model " ++ model_name ++ " activated successfully"),
          llm_assistant, calls).

(** [delete_model]: what the request ends in, the assistant afterwards, and
    the removal asked for.  The assistant is reset before [os.remove] is
    called, so it stays reset when the removal raises. *)
Definition delete_model (llm_assistant : LLMAssistant) (model_name : string)
  : served string * LLMAssistant * list fs_effect :=
  let path := os_path.join MODELS_DIR model_name in
  if negb (os_path_exists path) then
    (Served (HTTPException 404 ("Model " ++ model_name ++ " not found")),
     llm_assistant, [])
  else
    let llm_assistant :=
      match model_path llm_assistant with
      | Some active =>
          if String.eqb active path
          then set_model_path_field (set_model llm_assistant None) None
          else llm_assistant
      | None => llm_assistant
      end in
    (match os_remove path with
     | OsRaise error => Uncaught error
     | OsDone =>
         Served (Http_ok ("Model " ++ model_name ++ " deleted successfully"))
     end,
     llm_assistant, [FsRemove path]).

End ModelEndpoints.

(** ** Vocabulary for the properties of strings *)

Module StrSpec.

(** [Spaces s]: [s] is a sequence of white space characters. *)
Inductive Spaces : string -> Prop :=
| Spaces_nil : Spaces EmptyString
| Spaces_1 (c : ascii) (r : string) :
    PyStr.is_space c = true -> Spaces r -> Spaces (String c r)
| Spaces_2 (c1 c2 : ascii) (r : string) :
    PyStr.is_space2 c1 c2 = true -> Spaces r ->
    Spaces (String c1 (String c2 r))
| Spaces_3 (c1 c2 c3 : ascii) (r : string) :
    PyStr.is_space3 c1 c2 c3 = true -> Spaces r ->
    Spaces (String c1 (String c2 (String c3 r))).

(** [s] begins, or ends, with at least one white space character. *)
Definition begins_with_space (s : string) : Prop :=
  exists w r, s = w ++ r /\ w <> "" /\ Spaces w.

Definition ends_with_space (s : string) : Prop :=
  exists u w, s = u ++ w /\ w <> "" /\ Spaces w.

(** [s] has no white space at either end. *)
Definition trimmed (s : string) : Prop :=
  ~ begins_with_space s /\ ~ ends_with_space s.

End StrSpec.

(** ** A models directory to run the endpoints in *)

Module Sample.

Definition MODELS_DIR : string := "/models".

Definition os_path_exists (path : string) : bool :=
  String.eqb path "/models" || Str.startswith "/models/" path.

Definition os_listdir (dir : string) : list string :=
  ["llama-2.gguf"; "notes.txt"; "phi.gguf"].

Definition upload : UploadFile.t :=
  {| UploadFile.filename := "download.gguf"; UploadFile.file := "GGUF" |}.

(** There is no directory [/models/new] to write into. *)
Definition os_write (path content : string) : os_outcome :=
  if Str.startswith "/models/new/" path
  then OsRaise ("[Errno 2] No such file or directory: '" ++ path ++ "'")
  else OsDone.

(** [/models/old.gguf] is a directory. *)
Definition os_remove (path : string) : os_outcome :=
  if String.eqb path "/models/old.gguf"
  then OsRaise ("[Errno 21] Is a directory: '" ++ path ++ "'")
  else OsDone.

(** A requested name between two non-breaking spaces (U+00A0). *)
Definition nbsp : string := String (Str.byte 194) (String (Str.byte 160) "").
Definition padded_name : string := nbsp ++ "/etc/cron.d/job" ++ nbsp.

(** An engine that loads llama files only. *)
Definition llama_only (path : string) (kw : kwargs) : result Llama :=
  if Str.contains "llama" path
  then Ok (Fixture.constant_llama "42" path kw)
  else Raise (EngineError "unknown model architecture").

End Sample.

(** ** The stories endpoint (main.py, [get_all_stories]) *)

Module Stories.

Record Feed : Type := {
  id : option Z;
  url : string;
  title : option string
}.

(** What fetching and parsing one feed gives: the entries of the feed, or an
    exception (of the request, of the status check or of the parser). *)
Inductive fetched : Type :=
| Parsed (entries : list Document)
| Failed.

(** A point in time as [dateutil] returns it: with or without a time zone,
    and its position on the time line of its kind.  Two of them can be
    compared when they are of the same kind. *)
Record datetime : Type := {
  aware : bool;
  ticks : Z
}.

(** The outcome of the endpoint: the items, or the [TypeError] of the sort. *)
Inductive outcome : Type :=
| Items (items : list Document)
| TypeError.

(** [entry.get(key)] *)
Definition entry_get (entry : Document) (key : string) : pyval :=
  match entry !! key with
  | Some v => v
  | None => PNone
  end.

(** [feed.title or feed.url] *)
Definition title_or_url (feed : Feed) : string :=
  match title feed with
  | Some t => if String.eqb t "" then url feed else t
  | None => url feed
  end.

(** The dict appended for one entry of a feed. *)
Definition item_of (feed : Feed) (entry : Document) : Document :=
  <["title" := entry_get entry "title"]>
  (<["link" := entry_get entry "link"]>
  (<["published" := entry_get entry "published"]>
  (<["summary" := entry_get entry "summary"]>
  (<["feed_title" := PStr (title_or_url feed)]> ∅)))).

Section Endpoint.

(** The network and the feed parser, and the date parser ([None] when it
    raises). *)
Variable fetch : string -> fetched.
Variable dateutil_parse : string -> option datetime.

(** The loop over the feeds: a feed that fails is passed over. *)
Fixpoint all_items (feeds : list Feed) : list Document :=
  match feeds with
  | [] => []
  | feed :: rest =>
      match fetch (url feed) with
      | Parsed entries => (map (item_of feed) entries ++ all_items rest)%list
      | Failed => all_items rest
      end
  end.

(** The feed could be fetched and parsed. *)
Definition feed_answers (feed : Feed) : bool :=
  match fetch (url feed) with
  | Parsed _ => true
  | Failed => false
  end.

(** [parse_date]; the sort key is [parse_date(x) or ""], for which [None]
    stands here. *)
Definition parse_date (item : Document) : option datetime :=
  match item !! "published" with
  | Some (PStr s) => if String.eqb s "" then None else dateutil_parse s
  | _ => None
  end.

(** Whether Python can order two keys: two strings, or two datetimes of the
    same kind. *)
Definition comparable (k1 k2 : option datetime) : bool :=
  match k1, k2 with
  | None, None => true
  | Some a, Some b => Bool.eqb (aware a) (aware b)
  | _, _ => false
  end.

(** [x] may stay in front of [y] in the descending order. *)
Definition not_older (x y : Document) : bool :=
  match parse_date x, parse_date y with
  | Some a, Some b => ticks b <=? ticks a
  | _, _ => true
  end.

Fixpoint insert_desc (x : Document) (l : list Document) : list Document :=
  match l with
  | [] => [x]
  | y :: l' => if not_older x y then x :: l else y :: insert_desc x l'
  end.

(** [list.sort(key=..., reverse=True)]: stable, largest key first; it raises
    [TypeError] when two of the keys cannot be compared. *)
Definition sort_reverse (items : list Document) : outcome :=
  let keys := map parse_date items in
  match keys with
  | [] => Items []
  | k :: ks =>
      if forallb (comparable k) ks
      then Items (foldr insert_desc [] items)
      else TypeError
  end.

(** [get_all_stories], for the feeds that [select(Feed)] returns. *)
Definition get_all_stories (feeds : list Feed) : outcome :=
  sort_reverse (all_items feeds).

End Endpoint.

End Stories.

(** ** Feeds to run the stories endpoint on *)

Module SampleFeeds.

Definition news : Stories.Feed :=
  {| Stories.id := Some 1; Stories.url := "https://news.example/rss";
     Stories.title := Some "News" |}.

Definition down : Stories.Feed :=
  {| Stories.id := Some 2; Stories.url := "https://down.example/rss";
     Stories.title := None |}.

Definition dated : Document :=
  <["title" := PStr "Dated"]> (<["published" := PStr "2024-05-01T10:00:00Z"]> ∅).

Definition undated : Document := <["title" := PStr "Undated"]> ∅.

Definition fetch (url : string) : Stories.fetched :=
  if String.eqb url "https://news.example/rss"
  then Stories.Parsed [dated; undated]
  else Stories.Failed.

Definition dateutil_parse (s : string) : option Stories.datetime :=
  if String.eqb s "2024-05-01T10:00:00Z"
  then Some {| Stories.aware := true; Stories.ticks := 1714557600 |}
  else None.

End SampleFeeds.

(** ** The search by the distances that the index computes *)

(** The index keeps [float32] vectors and computes the squared distance in
    [float32] arithmetic, so the number it ranks by is [faiss.l2sqr] up to
    rounding.  In this module that computation is a parameter [dist]: a
    function of the query and of the stored vector, with finite results.
    All the rest is as above, and with [faiss.l2sqr] for [dist] the
    definitions are the ones above. *)
Module Computed.

Section Distance.

Variable dist : vector -> vector -> Q.

Definition candidates (ix : faiss.IndexFlatL2) (q : vector) : list (Q * nat) :=
  imap (fun i x => (dist q x, i)) (faiss.xb ix).

Definition knn (ix : faiss.IndexFlatL2) (k : nat) (q : vector)
  : list (option Q) * list Z :=
  let best := take k (faiss.sort (candidates ix q)) in
  let missing := (k - length best)%nat in
  ((map (fun c => Some (fst c)) best ++ replicate missing None)%list,
   (map (fun c => Z.of_nat (snd c)) best ++ replicate missing (-1))%list).

Definition search (ix : faiss.IndexFlatL2) (xq : ndarray) (k : Z)
  : result (list (list (option Q)) * list (list Z)) :=
  if 0 <? k then
    let rows := map (knn ix (Z.to_nat k)) xq in
    Ok (map fst rows, map snd rows)
  else Raise (AssertionError "").

(** [LLMAssistant.search_documents] *)
Definition search_documents (self : LLMAssistant) (query : string) (top_k : Z)
  : result (list Document) :=
  match index self, documents self with
  | None, _ | _, [] => Ok []
  | Some ix, _ :: _ =>
      let query_vector := encode (embedding_model self) [query] in
      '(distances, indices) ← search ix query_vector top_k;
      row ← py_getitem indices 0;
      collect (documents self) row []
  end.

(** The distance of a document to a query, as the index computes it. *)
Definition distance_to (m : SentenceTransformer) (query : string)
    (doc : Document) : Q :=
  dist (encode_one m query) (encode_one m (document_text doc)).

End Distance.

End Computed.

(** An encoder of two coordinates, and a computed distance that differs
    from the exact one: it looks at the first coordinate only. *)
Module Rounded.

Definition encoder : SentenceTransformer :=
  {| encode_one := fun s =>
       [inject_Z (Z.of_nat (String.length s));
        inject_Z (Z.of_nat (String.length s)) / 1000]%Q |}.

Definition dist (x y : vector) : Q :=
  match x, y with
  | a :: _, b :: _ => ((a - b) * (a - b))%Q
  | _, _ => 0%Q
  end.

Definition fresh : LLMAssistant :=
  {| model_path := None; model := None; embedding_model := encoder;
     index := None; documents := [] |}.

End Rounded.

(** ** File names with letters outside ASCII *)

Module Names.

(** [model-Q4_K_M.gguf] written with the Kelvin sign (U+212A) for its K,
    and [PHI-mini.gguf] written with the dotted capital I (U+0130). *)
Definition kelvin : string :=
  "model-Q4_"
  ++ String (Str.byte 226) (String (Str.byte 132) (String (Str.byte 170) "_M.gguf")).

Definition dotted : string :=
  "PH" ++ String (Str.byte 196) (String (Str.byte 176) "-mini.gguf").

End Names.

(** * Properties *)

(** ** File-name rules *)

Example params_llama3 :
  _get_model_params "/models/Meta-Llama-3-8B.Q4_K_M.gguf"
  = <["n_batch" := 512]> (<["n_ctx" := 4096]> default_params).
Proof. reflexivity. Qed.

Example params_unknown :
  _get_model_params "/models/tiny.gguf" = default_params.
Proof. reflexivity. Qed.

(** *** What [in] means *)

Lemma startswith_spec (p s : string) :
  Str.startswith p s = true <-> exists v, s = p ++ v.
Proof.
  revert s. induction p as [|a p IH]; intros s; simpl.
  - split; [intros _; exists s; reflexivity | reflexivity].
  - destruct s as [|b s].
    + split; [discriminate | intros [v Hv]; discriminate].
    + rewrite andb_true_iff, Ascii.eqb_eq, IH. split.
      * intros [-> [v ->]]. exists v. reflexivity.
      * intros [v Hv]. injection Hv as -> ->. split; [reflexivity | exists v; reflexivity].
Qed.

Lemma contains_spec (p s : string) :
  Str.contains p s = true <-> exists u v, s = u ++ p ++ v.
Proof.
  induction s as [|c s IH].
  - simpl. rewrite orb_false_r, startswith_spec. split.
    + intros [v Hv]. exists "", v. exact Hv.
    + intros [u [v Hv]]. destruct u; [exists v; exact Hv | discriminate].
  - cbn [Str.contains]. rewrite orb_true_iff, startswith_spec, IH. split.
    + intros [[v Hv] | [u [v Hv]]].
      * exists "", v. exact Hv.
      * exists (String c u), v. simpl. rewrite Hv. reflexivity.
    + intros [u [v Hv]]. destruct u as [|c' u].
      * left. exists v. exact Hv.
      * right. injection Hv as -> ->. exists u, v. reflexivity.
Qed.

Lemma string_app_assoc (a b c : string) : (a ++ b) ++ c = a ++ b ++ c.
Proof.
  induction a as [|x a IH]; [reflexivity |].
  change (String x ((a ++ b) ++ c) = String x (a ++ b ++ c)).
  f_equal. exact IH.
Qed.

Lemma contains_suffix_of_needle (a b s : string) :
  Str.contains (a ++ b) s = true -> Str.contains b s = true.
Proof.
  rewrite !contains_spec. intros [u [v ->]]. exists (u ++ a), v.
  rewrite !string_app_assoc. reflexivity.
Qed.

(** The second family name of the first rule is subsumed by the first. *)
Lemma contains_any_llama (f : string) :
  Str.contains_any ["llama"; "meta-llama"] f = Str.contains "llama" f.
Proof.
  unfold Str.contains_any. cbn [existsb]. rewrite orb_false_r.
  destruct (Str.contains "llama" f) eqn:E; [reflexivity |].
  destruct (Str.contains "meta-llama" f) eqn:E'; [| reflexivity].
  apply (contains_suffix_of_needle "meta-" "llama") in E'. congruence.
Qed.

Lemma insert_default_n_ctx : <["n_ctx" := 2048]> default_params = default_params.
Proof. apply insert_id. reflexivity. Qed.

Lemma get_model_params_unfold (model_path : string) :
  let filename := Str.lower (Str.basename model_path) in
  _get_model_params model_path =
  let params := <["n_ctx" := family_n_ctx filename]> default_params in
  if is_4bit filename then <["n_batch" := 512]> params else params.
Proof.
  cbv zeta. unfold _get_model_params, family_n_ctx, is_4bit.
  rewrite contains_any_llama.
  set (f := Str.lower (Str.basename model_path)).
  destruct (Str.contains "llama" f), (Str.contains "3" f), (Str.contains "2" f),
    (Str.contains "mistral" f), (Str.contains "phi" f), (Str.contains "mini" f),
    (Str.contains "gemma" f); cbn [orb];
    rewrite ?insert_default_n_ctx; reflexivity.
Qed.

Lemma family_n_ctx_unrecognised (filename : string) :
  Str.contains_any family_markers filename = false ->
  family_n_ctx filename = 2048.
Proof.
  unfold Str.contains_any, family_markers, family_n_ctx. cbn [existsb].
  rewrite !orb_false_iff. intros (-> & -> & -> & -> & _). reflexivity.
Qed.

Lemma family_n_ctx_range (filename : string) :
  family_n_ctx filename = 2048 \/ family_n_ctx filename = 4096.
Proof.
  unfold family_n_ctx.
  repeat match goal with
         | |- context [if ?b then _ else _] => destruct b
         end; auto.
Qed.

(** C5, as the code has it: the parameters depend on the path only through
    its lower-cased base name; they always carry 4 threads and 0 GPU layers;
    the context window is the one chosen by the first family rule that
    matches (llama, then mistral, phi, gemma): 4096 for a llama name that
    contains a 3 or a 2, for a mistral name, for a phi name that contains
    mini and for a gemma name, and 2048 in every other case, in particular
    when no family marker occurs; the batch size is 512 exactly when q4_0 or
    q4_k_m occurs and is absent otherwise; and no other key is set. *)
Theorem get_model_params_rules (path : string) :
  let filename := Str.lower (Str.basename path) in
  let params := _get_model_params path in
  (forall other, Str.lower (Str.basename other) = filename ->
                 _get_model_params other = params) /\
  params !! "n_threads" = Some 4 /\
  params !! "n_gpu_layers" = Some 0 /\
  params !! "n_ctx" = Some (family_n_ctx filename) /\
  (Str.contains_any family_markers filename = false ->
   params !! "n_ctx" = Some 2048) /\
  params !! "n_batch" = (if is_4bit filename then Some 512 else None) /\
  params = (if is_4bit filename
            then <["n_batch" := 512]> (<["n_ctx" := family_n_ctx filename]> default_params)
            else <["n_ctx" := family_n_ctx filename]> default_params).
Proof.
  intros filename params.
  assert (Hp : params = (if is_4bit filename
            then <["n_batch" := 512]> (<["n_ctx" := family_n_ctx filename]> default_params)
            else <["n_ctx" := family_n_ctx filename]> default_params))
    by apply get_model_params_unfold.
  assert (Hctx : params !! "n_ctx" = Some (family_n_ctx filename)).
  { rewrite Hp. destruct (is_4bit filename).
    - rewrite lookup_insert_ne by discriminate. apply lookup_insert_eq.
    - apply lookup_insert_eq. }
  split; [| repeat split].
  - intros other Hother. subst params.
    rewrite !get_model_params_unfold. cbv zeta. fold filename.
    rewrite Hother. reflexivity.
  - rewrite Hp. destruct (is_4bit filename);
      rewrite ?(lookup_insert_ne _ "n_batch") by discriminate;
      rewrite lookup_insert_ne by discriminate; reflexivity.
  - rewrite Hp. destruct (is_4bit filename);
      rewrite ?(lookup_insert_ne _ "n_batch") by discriminate;
      rewrite lookup_insert_ne by discriminate; reflexivity.
  - exact Hctx.
  - intros Hnone. rewrite Hctx, family_n_ctx_unrecognised by exact Hnone.
    reflexivity.
  - rewrite Hp. destruct (is_4bit filename).
    + apply lookup_insert_eq.
    + rewrite lookup_insert_ne by discriminate. reflexivity.
  - exact Hp.
Qed.

Lemma get_model_params_rules_witness :
  let params := _get_model_params "/models/Phi-3-mini-4k.Q4_0.gguf" in
  params !! "n_ctx" = Some 4096 /\ params !! "n_batch" = Some 512 /\
  _get_model_params "PHI-3-MINI-4K.q4_0.GGUF" = params.
Proof.
  pose proof (get_model_params_rules "/models/Phi-3-mini-4k.Q4_0.gguf")
    as (Hdet & _ & _ & Hctx & _ & Hbatch & _).
  split; [exact Hctx | split; [exact Hbatch |]].
  apply Hdet. reflexivity.
Defined.

(** Lower-casing is Python's: the Kelvin sign becomes the letter k, and the
    dotted capital I begins with the letter i. *)
Example get_model_params_kelvin :
  Str.lower Names.kelvin = "model-q4_k_m.gguf" /\
  _get_model_params Names.kelvin !! "n_batch" = Some 512.
Proof. split; reflexivity. Qed.

Example get_model_params_dotted :
  Str.startswith "phi" (Str.lower Names.dotted) = true /\
  _get_model_params Names.dotted !! "n_ctx" = Some 4096.
Proof. split; reflexivity. Qed.

(** C5 as stated fails: a name that carries the phi marker, but not mini,
    keeps the 2048 context window. *)
Lemma family_marker_without_raise :
  ~ (forall path,
        Str.contains_any family_markers (Str.lower (Str.basename path)) = true ->
        _get_model_params path !! "n_ctx" = Some 4096).
Proof.
  intros H. specialize (H "/models/phi-2.Q8_0.gguf" eq_refl).
  vm_compute in H. discriminate H.
Qed.

(** ** Loading a model *)

Section Loading.

Variable os_path_exists : string -> bool.
Variable Llama_new : string -> kwargs -> result Llama.

Lemma load_model_guard (self : LLMAssistant) (path : string) :
  model_path self = Some path ->
  String.eqb path "" = false ->
  os_path_exists path = true ->
  _load_model os_path_exists Llama_new self =
  let params := _get_model_params path in
  match Llama_new path params with
  | Ok m => ((true, ""), set_model self (Some m), [EvLoad path params])
  | Raise e =>
      match Llama_new path minimal_params with
      | Ok m => ((true, ""), set_model self (Some m),
                 [EvLoad path params; EvLoad path minimal_params])
      | Raise _ => ((false, "Error loading model: " ++ exn_str e), self,
                    [EvLoad path params; EvLoad path minimal_params])
      end
  end.
Proof.
  intros Hpath Hne Hex. unfold _load_model. rewrite Hpath, Hne, Hex.
  reflexivity.
Qed.

Lemma load_model_missing (self : LLMAssistant) (path : string) :
  model_path self = Some path ->
  os_path_exists path = false ->
  _load_model os_path_exists Llama_new self =
  ((false, "Model path '" ++ path ++ "' does not exist"), self, []).
Proof.
  intros Hpath Hex. unfold _load_model. rewrite Hpath, Hex.
  rewrite orb_true_r. reflexivity.
Qed.

End Loading.

(** C3: when the file exists, the first constructor call uses the parameters
    derived from the file name.  If it raises, exactly one more call is made,
    with the fixed minimal parameters (context window 2048, one thread, no
    GPU layers requested).  If that call succeeds the result is success and
    the loaded model is the one built from the minimal parameters; if it
    raises too, the result is failure, the message is made of the first
    error, and the assistant, with any model it held, is unchanged.  When the
    first call succeeds there is no retry. *)
Theorem load_model_retry_once
    (os_path_exists : string -> bool)
    (Llama_new : string -> kwargs -> result Llama)
    (self : LLMAssistant) (path : string) :
  model_path self = Some path ->
  String.eqb path "" = false ->
  os_path_exists path = true ->
  let derived := _get_model_params path in
  let '(outcome, self', calls) := _load_model os_path_exists Llama_new self in
  (exists retries, calls = EvLoad path derived :: retries /\
     (length retries <= 1)%nat) /\
  (forall m, Llama_new path derived = Ok m ->
     calls = [EvLoad path derived] /\
     outcome = (true, "") /\ self' = set_model self (Some m)) /\
  (forall e, Llama_new path derived = Raise e ->
     calls = [EvLoad path derived; EvLoad path minimal_params] /\
     (forall m, Llama_new path minimal_params = Ok m ->
        outcome = (true, "") /\ self' = set_model self (Some m) /\
        model self' = Some m) /\
     (forall e2, Llama_new path minimal_params = Raise e2 ->
        outcome = (false, "Error loading model: " ++ exn_str e) /\
        self' = self)) /\
  (minimal_params !! "n_ctx" = Some 2048 /\
   minimal_params !! "n_threads" = Some 1 /\
   minimal_params !! "n_gpu_layers" = None).
Proof.
  intros Hpath Hne Hex derived.
  rewrite (load_model_guard _ _ _ _ Hpath Hne Hex). cbv zeta. fold derived.
  destruct (Llama_new path derived) as [m|e] eqn:E1;
    [| destruct (Llama_new path minimal_params) as [m2|e2] eqn:E2];
    (split; [eexists; split; [reflexivity | simpl; lia] |]);
    (split; [intros m' Hm; try discriminate Hm; injection Hm as <-; auto |]);
    (split; [| repeat split]);
    intros e' He; try discriminate He; injection He as <-;
    (split; [reflexivity |]);
    (split; [intros m' Hm | intros e3 He3]);
    try discriminate; auto.
  injection Hm as <-. auto.
Qed.

Lemma load_model_retry_once_witness :
  let path := "/models/llama-2-7b.gguf" in
  let self := set_model_path_field Fixture.fresh (Some path) in
  _load_model Fixture.models_dir_only Fixture.small_engine self =
  ((true, ""),
   set_model self (Some (Fixture.constant_llama "42" path minimal_params)),
   [EvLoad path (_get_model_params path); EvLoad path minimal_params]).
Proof.
  intros path self.
  pose proof (load_model_retry_once Fixture.models_dir_only
                Fixture.small_engine self path eq_refl eq_refl eq_refl) as H.
  cbv zeta in H.
  destruct (_load_model Fixture.models_dir_only Fixture.small_engine self)
    as [[outcome self'] calls].
  destruct H as (_ & _ & H & _).
  destruct (H (EngineError "failed to create llama_context") eq_refl)
    as (-> & Hok & _).
  destruct (Hok (Fixture.constant_llama "42" path minimal_params) eq_refl)
    as (-> & -> & _).
  reflexivity.
Defined.

Example load_model_both_attempts_fail :
  let path := "/models/mistral-7b.gguf" in
  let held := Fixture.constant_llama "42" "/models/phi.gguf" minimal_params in
  let self := set_model (set_model_path_field Fixture.fresh (Some path)) (Some held) in
  _load_model Fixture.models_dir_only Fixture.broken_engine self =
  ((false, "Error loading model: invalid magic in /models/mistral-7b.gguf"),
   self,
   [EvLoad path (_get_model_params path); EvLoad path minimal_params]).
Proof. reflexivity. Qed.

(** ** Setting the model path *)

(** C4, as the code has it: when the path names no existing file,
    [set_model_path] fails at once, without calling the engine, with a
    failure result that carries the message
    [Model path '<path>' does not exist]; the model handle, the index and the
    documents are unchanged, so an assistant without a model stays without
    one; the stored model path, however, is overwritten with the given path
    before the check. *)
Theorem set_model_path_missing_file
    (os_path_exists : string -> bool)
    (Llama_new : string -> kwargs -> result Llama)
    (self : LLMAssistant) (path : string) :
  os_path_exists path = false ->
  let '(outcome, self', calls) :=
    set_model_path os_path_exists Llama_new self path in
  outcome = (false, "Model path '" ++ path ++ "' does not exist") /\
  calls = [] /\
  model self' = model self /\
  (model self = None -> model self' = None) /\
  index self' = index self /\
  documents self' = documents self /\
  embedding_model self' = embedding_model self /\
  model_path self' = Some path.
Proof.
  intros Hex. unfold set_model_path.
  rewrite (load_model_missing _ _ (set_model_path_field self (Some path)) path eq_refl Hex).
  repeat split. intros H. exact H.
Qed.

Lemma set_model_path_missing_file_witness :
  let '(outcome, self', calls) :=
    set_model_path Fixture.models_dir_only Fixture.small_engine Fixture.fresh
      "/tmp/absent.gguf" in
  outcome = (false, "Model path '/tmp/absent.gguf' does not exist") /\
  calls = [] /\ model self' = None /\ model_path self' = Some "/tmp/absent.gguf".
Proof.
  pose proof (set_model_path_missing_file Fixture.models_dir_only
                Fixture.small_engine Fixture.fresh "/tmp/absent.gguf" eq_refl)
    as H.
  destruct (set_model_path Fixture.models_dir_only Fixture.small_engine
              Fixture.fresh "/tmp/absent.gguf") as [[outcome self'] calls].
  destruct H as (H1 & H2 & _ & H3 & _ & _ & _ & H4).
  split; [exact H1 | split; [exact H2 | split; [exact (H3 eq_refl) | exact H4]]].
Defined.

(** C4 as stated fails: the failed call does change the active-model state,
    since the stored path is replaced by the rejected one. *)
Lemma set_model_path_overwrites_path :
  ~ (forall os_path_exists Llama_new self path,
        os_path_exists path = false ->
        let self' := snd (fst (set_model_path os_path_exists Llama_new self path)) in
        (model_path self', model self') = (model_path self, model self)).
Proof.
  intros H.
  specialize (H Fixture.models_dir_only Fixture.small_engine Fixture.fresh
                "/tmp/absent.gguf" eq_refl).
  discriminate H.
Qed.

(** ** Searching *)

(** C9: on an assistant whose index was never built, or whose document list
    is empty, [search_documents] returns the empty list, whatever the query
    and whatever [top_k] (zero and negative values included); it does not
    raise. *)
Theorem search_documents_unbuilt_or_empty
    (self : LLMAssistant) (query : string) (top_k : Z) :
  index self = None \/ documents self = [] ->
  search_documents self query top_k = Ok [].
Proof.
  unfold search_documents. intros [H | H]; rewrite H.
  - reflexivity.
  - destruct (index self); reflexivity.
Qed.

Lemma search_documents_unbuilt_or_empty_witness :
  search_documents Fixture.fresh "apples" (-2) = Ok [] /\
  search_documents
    (set_index Fixture.fresh (Some (faiss.add (faiss.new 1) [[1%Q]])))
    "apples" 5 = Ok [].
Proof.
  split.
  - apply search_documents_unbuilt_or_empty. left. reflexivity.
  - apply search_documents_unbuilt_or_empty. right. reflexivity.
Defined.

(** *** The labels of the index *)

Lemma knn_labels_length (ix : faiss.IndexFlatL2) (k : nat) (q : vector) :
  length (snd (faiss.knn ix k q)) = k.
Proof.
  unfold faiss.knn. cbn [snd].
  rewrite length_app, length_map, length_replicate, length_take. lia.
Qed.

Lemma knn_labels_lower_bound (ix : faiss.IndexFlatL2) (k : nat) (q : vector) :
  Forall (fun i => -1 <= i) (snd (faiss.knn ix k q)).
Proof.
  unfold faiss.knn. cbn [snd]. apply Forall_app. split.
  - apply Forall_map. apply Forall_true. intros c. cbn. lia.
  - apply Forall_replicate. lia.
Qed.

Lemma search_one_query (ix : faiss.IndexFlatL2) (q : vector) (k : Z) :
  0 < k ->
  faiss.search ix [q] k =
  Ok ([fst (faiss.knn ix (Z.to_nat k) q)], [snd (faiss.knn ix (Z.to_nat k) q)]).
Proof.
  intros Hk. unfold faiss.search.
  destruct (0 <? k) eqn:E; [reflexivity | apply Z.ltb_ge in E; lia].
Qed.

(** *** The loop over the labels *)

Lemma py_getitem_last {A : Type} (l : list A) (x : A) :
  py_getitem (l ++ [x])%list (-1) = Ok x.
Proof.
  unfold py_getitem. rewrite length_app. cbn [length].
  replace (-1 <? 0) with true by reflexivity.
  replace (Z.of_nat (length l + 1) + -1) with (Z.of_nat (length l)) by lia.
  destruct (0 <=? Z.of_nat (length l)) eqn:E1; [| apply Z.leb_gt in E1; lia].
  destruct (Z.of_nat (length l) <? Z.of_nat (length l + 1)) eqn:E2;
    [| apply Z.ltb_ge in E2; lia].
  cbn [andb]. rewrite Nat2Z.id, lookup_app_r, Nat.sub_diag by lia. reflexivity.
Qed.

Lemma py_getitem_nat {A : Type} (l : list A) (i : nat) (x : A) :
  l !! i = Some x -> py_getitem l (Z.of_nat i) = Ok x.
Proof.
  intros Hx. pose proof (lookup_lt_Some _ _ _ Hx) as Hlt.
  unfold py_getitem.
  destruct (Z.of_nat i <? 0) eqn:E0; [apply Z.ltb_lt in E0; lia |].
  destruct (0 <=? Z.of_nat i) eqn:E1; [| apply Z.leb_gt in E1; lia].
  destruct (Z.of_nat i <? Z.of_nat (length l)) eqn:E2;
    [| apply Z.ltb_ge in E2; lia].
  cbn [andb]. rewrite Nat2Z.id, Hx. reflexivity.
Qed.

Lemma py_getitem_0 {A : Type} (x : A) (l : list A) :
  py_getitem (x :: l) 0 = Ok x.
Proof. apply (py_getitem_nat (x :: l) 0). reflexivity. Qed.

(** A label that passes the test of the loop and is not below [-1] always
    names a document of a non-empty list. *)
Lemma py_getitem_guarded (docs : list Document) (idx : Z) :
  docs <> [] -> -1 <= idx -> idx < Z.of_nat (length docs) ->
  exists doc, py_getitem docs idx = Ok doc.
Proof.
  intros Hne Hlo Hhi.
  destruct (Z.ltb_spec idx 0) as [Hneg | Hpos].
  - assert (idx = -1) as -> by lia.
    destruct (exists_last Hne) as (l & x & ->).
    exists x. apply py_getitem_last.
  - destruct (lookup_lt_is_Some_2 docs (Z.to_nat idx)) as [doc Hdoc]; [lia |].
    exists doc. rewrite <- (Z2Nat.id idx) by lia.
    apply py_getitem_nat. exact Hdoc.
Qed.

Lemma collect_total (docs : list Document) (indices : list Z)
    (results : list Document) :
  docs <> [] ->
  Forall (fun i => -1 <= i) indices ->
  exists found,
    collect docs indices results = Ok found /\
    (length found <= length results + length indices)%nat.
Proof.
  intros Hne Hall. revert results.
  induction Hall as [| idx rest Hidx _ IH]; intros results.
  - exists results. split; [reflexivity | lia].
  - cbn [collect]. destruct (Z.ltb_spec idx (Z.of_nat (length docs))) as [Hlt | Hge].
    + destruct (py_getitem_guarded docs idx Hne Hidx Hlt) as [doc ->].
      cbn. destruct (IH (results ++ [doc])%list) as (found & -> & Hlen).
      exists found. split; [reflexivity |].
      rewrite length_app in Hlen. cbn [length] in *. lia.
    + destruct (IH results) as (found & -> & Hlen).
      exists found. split; [reflexivity |]. cbn [length]. lia.
Qed.

(** With a positive [top_k] the search never raises and returns at most
    [top_k] documents, whatever the state of the assistant. *)
Lemma search_documents_total (self : LLMAssistant) (query : string) (top_k : Z) :
  0 < top_k ->
  exists found,
    search_documents self query top_k = Ok found /\
    (Z.of_nat (length found) <= top_k).
Proof.
  intros Hk. unfold search_documents.
  destruct (index self) as [ix |]; [| exists []; split; [reflexivity | cbn; lia]].
  destruct (documents self) as [| doc docs] eqn:Hdocs;
    [exists []; split; [reflexivity | cbn; lia] |].
  cbn [encode map]. rewrite search_one_query by exact Hk.
  cbn. rewrite py_getitem_0. cbn.
  destruct (collect_total (doc :: docs)
              (snd (faiss.knn ix (Z.to_nat top_k) (encode_one (embedding_model self) query)))
              []) as (found & Hfound & Hlen).
  - discriminate.
  - apply knn_labels_lower_bound.
  - exists found. split; [exact Hfound |].
    rewrite knn_labels_length in Hlen. cbn [length] in Hlen. lia.
Qed.

(** ** The flat index returns the nearest vectors first *)

Section FlatIndex.

Implicit Types (c : Q * nat) (cs : list (Q * nat)).

Lemma insert_perm c cs : faiss.insert c cs ≡ₚ c :: cs.
Proof.
  induction cs as [| c' cs IH]; cbn [faiss.insert]; [reflexivity |].
  destruct (Qle_bool (fst c) (fst c')); [reflexivity |].
  rewrite IH. apply Permutation_swap.
Qed.

Lemma sort_perm cs : faiss.sort cs ≡ₚ cs.
Proof.
  induction cs as [| c cs IH]; [reflexivity |].
  unfold faiss.sort in *. cbn [foldr]. rewrite insert_perm, IH. reflexivity.
Qed.

Lemma sort_length cs : length (faiss.sort cs) = length cs.
Proof. apply Permutation_length, sort_perm. Qed.

(** Not farther and stored earlier implies [nearer]. *)
Lemma nearer_of_le c c' :
  (fst c <= fst c')%Q -> (snd c < snd c')%nat -> nearer c c'.
Proof.
  intros Hle Hlt. destruct (Qle_lt_or_eq _ _ Hle) as [H | H].
  - left. exact H.
  - right. split; assumption.
Qed.

Lemma nearer_le c c' : nearer c c' -> (fst c <= fst c')%Q.
Proof.
  intros [H | [H _]].
  - apply Qlt_le_weak, H.
  - rewrite H. apply Qle_refl.
Qed.

Lemma insert_sorted c cs :
  StronglySorted nearer cs ->
  Forall (stored_before c) cs ->
  StronglySorted nearer (faiss.insert c cs).
Proof.
  induction 1 as [| c' cs Hsorted IH Hc']; intros Hlater; cbn [faiss.insert].
  - repeat constructor.
  - apply Forall_cons in Hlater as [Hc Hlater].
    destruct (Qle_bool (fst c) (fst c')) eqn:E.
    + apply Qle_bool_iff in E. constructor; [constructor; assumption |].
      constructor; [apply nearer_of_le; assumption |].
      rewrite Forall_forall in Hc', Hlater |- *. intros z Hz.
      apply nearer_of_le; [| apply Hlater, Hz].
      apply Qle_trans with (fst c'); [exact E | apply nearer_le, Hc', Hz].
    + assert (fst c' < fst c)%Q as Hlt.
      { apply Qnot_le_lt. intros Hle. apply Qle_bool_iff in Hle. congruence. }
      constructor; [apply IH, Hlater |].
      rewrite insert_perm. constructor; [left; exact Hlt | exact Hc'].
Qed.

Lemma sort_sorted cs :
  StronglySorted stored_before cs -> StronglySorted nearer (faiss.sort cs).
Proof.
  induction 1 as [| c cs Hsorted IH Hc]; [constructor |].
  unfold faiss.sort in *. cbn [foldr]. apply insert_sorted; [exact IH |].
  rewrite sort_perm. exact Hc.
Qed.

(** The candidates carry the positions [0], [1], ... in storage order. *)
Lemma imap_candidates_sorted (q : vector) (xs : list vector) (off : nat) :
  StronglySorted stored_before
    (imap (fun i x => (faiss.l2sqr q x, (off + i)%nat)) xs) /\
  Forall (fun c => (off <= snd c < off + length xs)%nat)
    (imap (fun i x => (faiss.l2sqr q x, (off + i)%nat)) xs).
Proof.
  revert off. induction xs as [| x xs IH]; intros off; cbn [imap].
  - split; constructor.
  - rewrite (imap_ext _ (fun i y => (faiss.l2sqr q y, (S off + i)%nat)))
      by (intros i y _; cbn; f_equal; lia).
    destruct (IH (S off)) as [IH1 IH2]. split.
    + constructor; [exact IH1 |].
      eapply Forall_impl; [exact IH2 |]. intros c Hc.
      unfold stored_before. cbn in *. lia.
    + constructor; [cbn; lia |].
      eapply Forall_impl; [exact IH2 |]. intros c Hc. cbn in *. lia.
Qed.

Lemma candidates_sorted (ix : faiss.IndexFlatL2) (q : vector) :
  StronglySorted stored_before (faiss.candidates ix q).
Proof. apply (imap_candidates_sorted q (faiss.xb ix) 0). Qed.

Lemma candidates_in_range (ix : faiss.IndexFlatL2) (q : vector) :
  Forall (fun c => (snd c < faiss.ntotal ix)%nat) (faiss.candidates ix q).
Proof.
  eapply Forall_impl; [apply (imap_candidates_sorted q (faiss.xb ix) 0) |].
  intros c Hc. unfold faiss.ntotal. cbn in *. lia.
Qed.

Lemma candidates_length (ix : faiss.IndexFlatL2) (q : vector) :
  length (faiss.candidates ix q) = faiss.ntotal ix.
Proof. apply length_imap. Qed.

Lemma candidates_lookup (ix : faiss.IndexFlatL2) (q : vector) c :
  c ∈ faiss.candidates ix q ->
  exists x, faiss.xb ix !! snd c = Some x /\ fst c = faiss.l2sqr q x.
Proof.
  unfold faiss.candidates. rewrite list_elem_of_lookup.
  intros [i Hi]. rewrite list_lookup_imap in Hi.
  destruct (faiss.xb ix !! i) as [x |] eqn:Hx; [| discriminate].
  injection Hi as <-. exists x. split; [exact Hx | reflexivity].
Qed.

(** The whole ranking: a rearrangement of the candidates in which every
    candidate is [nearer] than all that follow. *)
Lemma ranking_sorted (ix : faiss.IndexFlatL2) (q : vector) :
  StronglySorted nearer (faiss.sort (faiss.candidates ix q)).
Proof. apply sort_sorted, candidates_sorted. Qed.

End FlatIndex.

(** ** Building the index, then searching it *)

Lemma collect_app (docs : list Document) (i1 i2 : list Z) (results : list Document) :
  collect docs (i1 ++ i2) results =
  (found ← collect docs i1 results; collect docs i2 found).
Proof.
  revert results. induction i1 as [| idx i1 IH]; intros results; [reflexivity |].
  cbn [app collect]. destruct (idx <? Z.of_nat (length docs)); [| apply IH].
  destruct (py_getitem docs idx) as [doc | e]; [| reflexivity].
  cbn. apply IH.
Qed.

(** Labels of stored vectors fetch the documents at those positions. *)
Lemma collect_stored (docs : list Document) (cs : list (Q * nat))
    (results : list Document) :
  Forall (fun c => (snd c < length docs)%nat) cs ->
  exists found,
    collect docs (map (fun c => Z.of_nat (snd c)) cs) results
      = Ok (results ++ found)%list /\
    Forall2 (fun c doc => docs !! snd c = Some doc) cs found.
Proof.
  intros Hall. revert results.
  induction Hall as [| c cs Hc _ IH]; intros results.
  - exists []. rewrite app_nil_r. split; [reflexivity | constructor].
  - destruct (lookup_lt_is_Some_2 docs (snd c) Hc) as [doc Hdoc].
    destruct (IH (results ++ [doc])%list) as (found & Hfound & Hall2).
    exists (doc :: found). split; [| constructor; assumption].
    cbn [map collect].
    destruct (Z.ltb_spec (Z.of_nat (snd c)) (Z.of_nat (length docs))); [| lia].
    rewrite (py_getitem_nat _ _ _ Hdoc). cbn.
    rewrite Hfound, <- app_assoc. reflexivity.
Qed.

(** Every padding label [-1] fetches the last document. *)
Lemma collect_padding (docs : list Document) (last_doc : Document) (n : nat)
    (results : list Document) :
  collect (docs ++ [last_doc]) (replicate n (-1)) results
  = Ok (results ++ replicate n last_doc)%list.
Proof.
  revert results. induction n as [| n IH]; intros results.
  - cbn. rewrite app_nil_r. reflexivity.
  - cbn [replicate collect].
    destruct (Z.ltb_spec (-1) (Z.of_nat (length (docs ++ [last_doc])))); [| lia].
    rewrite py_getitem_last. cbn. rewrite IH, <- app_assoc. reflexivity.
Qed.

Lemma index_documents_nonempty (self : LLMAssistant) (docs : list Document) :
  docs <> [] ->
  exists dimension,
    index_documents self docs =
    (Ok (length docs),
     set_index (set_documents self docs)
       (Some {| faiss.d := dimension;
                faiss.xb := encode (embedding_model self)
                              (map document_text docs) |})).
Proof.
  intros Hne. destruct docs as [| doc docs]; [congruence |].
  eexists. reflexivity.
Qed.

(** [index_documents] on no document at all: the document list has already
    been replaced when reading the second axis of the empty array raises, so
    the old index stays. *)
Lemma index_documents_empty (self : LLMAssistant) :
  index_documents self [] =
  (Raise (IndexError "tuple index out of range"), set_documents self []).
Proof. reflexivity. Qed.

Section BuildThenSearch.

Variable self : LLMAssistant.
Variable docs : list Document.
Variable query : string.
Hypothesis docs_nonempty : docs <> [].

Let built : LLMAssistant := snd (index_documents self docs).
Let encoder : SentenceTransformer := embedding_model self.

(** The ranking of the whole corpus for the query. *)
Let ranking : list (Q * nat) :=
  match index built with
  | Some ix => faiss.sort (faiss.candidates ix (encode_one encoder query))
  | None => []
  end.

Lemma built_fields :
  documents built = docs /\ model built = model self /\
  model_path built = model_path self /\
  embedding_model built = encoder /\
  exists ix, index built = Some ix /\
    faiss.xb ix = encode encoder (map document_text docs) /\
    faiss.ntotal ix = length docs.
Proof.
  unfold built.
  destruct (index_documents_nonempty self docs docs_nonempty) as [dim ->].
  cbn. repeat split. eexists. split; [reflexivity |]. split; [reflexivity |].
  unfold faiss.ntotal, encode. cbn. rewrite !length_map. reflexivity.
Qed.

Lemma ranking_perm_sorted :
  length ranking = length docs /\
  StronglySorted nearer ranking /\
  Forall (fun c => exists doc,
            docs !! snd c = Some doc /\
            fst c = distance_to encoder query doc) ranking.
Proof.
  destruct built_fields as (_ & _ & _ & _ & ix & Hix & Hxb & Hn).
  unfold ranking. rewrite Hix. split; [| split].
  - rewrite sort_length, candidates_length. exact Hn.
  - apply ranking_sorted.
  - rewrite sort_perm. apply Forall_forall. intros c Hc.
    destruct (candidates_lookup _ _ _ Hc) as (x & Hx & Hfst).
    rewrite Hxb in Hx. unfold encode in Hx.
    rewrite !list_lookup_fmap in Hx.
    destruct (docs !! snd c) as [doc |]; [| discriminate].
    cbn in Hx. injection Hx as <-. exists doc. split; [reflexivity |].
    exact Hfst.
Qed.

(** What [search_documents] returns after a build: the documents of the
    first [top_k] entries of the ranking, followed, when [top_k] exceeds
    the size of the corpus, by one copy of the last document for every
    missing entry. *)
Lemma search_after_build (top_k : Z) :
  0 < top_k ->
  exists found last_doc,
    last docs = Some last_doc /\
    Forall2 (fun c doc => docs !! snd c = Some doc /\
                          fst c = distance_to encoder query doc)
      (take (Z.to_nat top_k) ranking) found /\
    search_documents built query top_k =
    Ok (found ++ replicate (Z.to_nat top_k - length docs) last_doc)%list.
Proof.
  intros Hk.
  destruct ranking_perm_sorted as (Hlen & _ & Hdocs).
  destruct built_fields as (Hd & _ & _ & He & ix & Hix & Hxb & Hn).
  destruct (exists_last docs_nonempty) as (front & last_doc & Hlast).
  unfold ranking in *. rewrite Hix in *.
  set (rk := faiss.sort (faiss.candidates ix (encode_one encoder query))) in *.
  destruct (collect_stored docs (take (Z.to_nat top_k) rk) []) as (found & Hfound & Hall2).
  { apply Forall_take. eapply Forall_impl; [exact Hdocs |].
    intros c (doc & Hdoc & _). cbn. eapply lookup_lt_Some, Hdoc. }
  exists found, last_doc. split; [rewrite Hlast; apply last_snoc |]. split.
  - apply Forall2_same_length_lookup. split; [eapply Forall2_length, Hall2 |].
    intros i c doc Hc Hdoc.
    pose proof (Forall2_lookup_lr _ _ _ _ _ _ Hall2 Hc Hdoc) as Hcd.
    split; [exact Hcd |].
    assert (c ∈ rk) as Hin.
    { apply (subseteq_take (Z.to_nat top_k)). eapply list_elem_of_lookup_2, Hc. }
    rewrite Forall_forall in Hdocs.
    destruct (Hdocs c Hin) as (doc' & Hdoc' & Hfst).
    cbn in Hcd. rewrite Hdoc' in Hcd. injection Hcd as ->. exact Hfst.
  - unfold search_documents. rewrite Hix, Hd, He.
    destruct docs as [| doc0 docs0] eqn:Edocs; [congruence |].
    rewrite <- Edocs in *. cbn [encode map].
    rewrite search_one_query by exact Hk. cbn.
    rewrite py_getitem_0. cbn. unfold faiss.knn. cbn [snd]. fold rk.
    rewrite collect_app, Hfound. cbn.
    rewrite length_take, Hlen.
    replace (Z.to_nat top_k - Z.to_nat top_k `min` length docs)%nat
      with (Z.to_nat top_k - length docs)%nat by lia.
    rewrite Hlast at 1. apply collect_padding.
Qed.

End BuildThenSearch.

(** ** Generating *)

(** C7: with a model loaded, [generate_response] calls it exactly once, with
    the given prompt and token limit, temperature 0.7, repetition penalty 1.1
    and no echo of the prompt.  It always returns a string: the text of the
    first choice when the call succeeds, and otherwise a description of the
    error, which is therefore never raised to the caller. *)
Theorem generate_response_absorbs_errors
    (self : LLMAssistant) (m : Llama) (prompt : string) (limit : option Z) :
  model self = Some m ->
  let req := {| req_prompt := prompt; req_max_tokens := limit;
                req_temperature := 7 # 10; req_repeat_penalty := 11 # 10;
                req_echo := false |} in
  let '(text, calls) := generate_response self prompt limit in
  calls = [EvComplete req] /\
  (forall e, llama_call m req = Raise e ->
     text = "Error generating response: " ++ exn_str e) /\
  (forall first others, llama_call m req = Ok {| choices := first :: others |} ->
     text = first) /\
  (llama_call m req = Ok {| choices := [] |} ->
     text = "Error generating response: list index out of range").
Proof.
  intros Hm req. unfold generate_response. rewrite Hm. fold req.
  split; [reflexivity |].
  destruct (llama_call m req) as [[[| first others]] | e];
    (split; [intros e' He' | split; [intros f o Hfo | intros Hnil]]);
    try discriminate; cbn.
  - reflexivity.
  - injection Hfo as <- <-. rewrite py_getitem_0. reflexivity.
  - injection He' as <-. reflexivity.
Qed.

Lemma generate_response_absorbs_errors_witness :
  let self := set_model Fixture.fresh
                (Some (Fixture.failing_llama "/models/phi.gguf" minimal_params)) in
  generate_response self "Why?" (Some 64) =
  ("Error generating response: llama_decode returned -1",
   [EvComplete {| req_prompt := "Why?"; req_max_tokens := Some 64;
                  req_temperature := 7 # 10; req_repeat_penalty := 11 # 10;
                  req_echo := false |}]).
Proof.
  intros self.
  pose proof (generate_response_absorbs_errors self
                (Fixture.failing_llama "/models/phi.gguf" minimal_params)
                "Why?" (Some 64) eq_refl) as H.
  cbv zeta in H.
  destruct (generate_response self "Why?" (Some 64)) as [text calls].
  destruct H as (-> & Herr & _).
  rewrite (Herr (EngineError "llama_decode returned -1") eq_refl).
  reflexivity.
Defined.

Lemma generate_response_without_model
    (self : LLMAssistant) (prompt : string) (limit : option Z) :
  model self = None ->
  generate_response self prompt limit = (model_not_loaded, []).
Proof. intros Hm. unfold generate_response. rewrite Hm. reflexivity. Qed.

(** ** Answering *)

Lemma answer_with_context_unfold
    (self : LLMAssistant) (question : string) (limit : option Z) :
  exists relevant_docs,
    search_documents self question 3 = Ok relevant_docs /\
    (length relevant_docs <= 3)%nat /\
    answer_with_context self question limit =
    (Ok {| answer := fst (generate_response self
                            (build_prompt (context_from 0 relevant_docs) question)
                            limit);
           sources := relevant_docs |},
     snd (generate_response self
            (build_prompt (context_from 0 relevant_docs) question) limit)).
Proof.
  destruct (search_documents_total self question 3) as (found & Hfound & Hlen);
    [lia |].
  exists found. split; [exact Hfound | split; [lia |]].
  unfold answer_with_context. rewrite Hfound.
  destruct (generate_response self _ limit). reflexivity.
Qed.

Section Ask.

Variable llm_assistant : LLMAssistant.
Variable notes : list Note.
Variable q : LLMQuery.
Hypothesis notes_nonempty : notes <> [].

Let indexed : LLMAssistant :=
  snd (index_documents llm_assistant (map document_of_note notes)).

Lemma ask_llm_indexes :
  index_documents llm_assistant (map document_of_note notes) =
  (Ok (length notes), indexed) /\
  model indexed = model llm_assistant.
Proof.
  unfold indexed.
  destruct (index_documents_nonempty llm_assistant (map document_of_note notes))
    as [dim ->].
  - destruct notes; [congruence | discriminate].
  - rewrite length_map. split; reflexivity.
Qed.

(** Without a model the endpoint answers with its own sentence and the
    result of a search with [top_k = 5]. *)
Lemma ask_llm_without_model :
  model llm_assistant = None ->
  exists found,
    search_documents indexed (query q) 5 = Ok found /\
    (length found <= 5)%nat /\
    ask_llm llm_assistant notes q =
    (Ok {| answer := no_model_loaded; sources := found |}, indexed, []).
Proof.
  intros Hm. destruct ask_llm_indexes as [Hix Hmodel].
  destruct (search_documents_total indexed (query q) 5) as (found & Hfound & Hlen);
    [lia |].
  exists found. split; [exact Hfound | split; [lia |]].
  unfold ask_llm. rewrite Hix, Hmodel, Hm, Hfound. reflexivity.
Qed.

(** With a model the endpoint returns what [answer_with_context] returns:
    the generated text (or the description of the generation error) and
    the result of a search with [top_k = 3]. *)
Lemma ask_llm_with_model (m : Llama) :
  model llm_assistant = Some m ->
  exists found text,
    search_documents indexed (query q) 3 = Ok found /\
    (length found <= 3)%nat /\
    generate_response indexed
      (build_prompt (context_from 0 found) (query q)) (max_tokens q)
    = (text, [EvComplete
                {| req_prompt := build_prompt (context_from 0 found) (query q);
                   req_max_tokens := max_tokens q;
                   req_temperature := 7 # 10; req_repeat_penalty := 11 # 10;
                   req_echo := false |}]) /\
    ask_llm llm_assistant notes q =
    (Ok {| answer := text; sources := found |}, indexed,
     [EvComplete
        {| req_prompt := build_prompt (context_from 0 found) (query q);
           req_max_tokens := max_tokens q;
           req_temperature := 7 # 10; req_repeat_penalty := 11 # 10;
           req_echo := false |}]).
Proof.
  intros Hm. destruct ask_llm_indexes as [Hix Hmodel].
  destruct (answer_with_context_unfold indexed (query q) (max_tokens q))
    as (found & Hfound & Hlen & Hans).
  assert (Hgen : exists text,
    generate_response indexed
      (build_prompt (context_from 0 found) (query q)) (max_tokens q)
    = (text, [EvComplete
                {| req_prompt := build_prompt (context_from 0 found) (query q);
                   req_max_tokens := max_tokens q;
                   req_temperature := 7 # 10; req_repeat_penalty := 11 # 10;
                   req_echo := false |}])).
  { unfold generate_response. rewrite Hmodel, Hm. eexists. reflexivity. }
  destruct Hgen as [text Hgen].
  exists found, text. split; [exact Hfound | split; [exact Hlen |]].
  split; [exact Hgen |].
  unfold ask_llm. rewrite Hix, Hmodel, Hm, Hans, Hgen. reflexivity.
Qed.

End Ask.

(** C10: without a model, [answer_with_context] does not raise; it runs the
    search with [top_k = 3] and returns the sentence of the pipeline,
    [Model not loaded. Please set a valid model path first.], with the at
    most three documents found, and calls no engine.  The endpoint differs on
    both counts: on a store that holds notes it answers
    [No LLM model is currently loaded. Please upload a model first.] with
    the result of a search with [top_k = 5]. *)
Theorem answer_with_context_without_model
    (self : LLMAssistant) (question : string) (limit : option Z) :
  model self = None ->
  (exists relevant_docs,
     search_documents self question 3 = Ok relevant_docs /\
     (length relevant_docs <= 3)%nat /\
     answer_with_context self question limit =
     (Ok {| answer := "Model not loaded. Please set a valid model path first.";
            sources := relevant_docs |}, [])) /\
  model_not_loaded <> no_model_loaded /\
  (forall notes q, notes <> [] ->
     exists found,
       search_documents
         (snd (index_documents self (map document_of_note notes))) (query q) 5
       = Ok found /\
       (length found <= 5)%nat /\
       fst (fst (ask_llm self notes q)) =
       Ok {| answer := "No LLM model is currently loaded. Please upload a model first.";
             sources := found |}).
Proof.
  intros Hm. split; [| split].
  - destruct (answer_with_context_unfold self question limit)
      as (docs & Hdocs & Hlen & Hans).
    exists docs. split; [exact Hdocs | split; [exact Hlen |]].
    rewrite Hans, generate_response_without_model by exact Hm. reflexivity.
  - discriminate.
  - intros notes q Hne.
    destruct (ask_llm_without_model self notes q Hne Hm) as (found & Hf & Hlen & Hask).
    exists found. split; [exact Hf | split; [exact Hlen |]].
    rewrite Hask. reflexivity.
Qed.

Lemma answer_with_context_without_model_witness :
  answer_with_context
    (snd (index_documents Fixture.fresh [Fixture.doc_a; Fixture.doc_b]))
    "b" (Some 64)
  = (Ok {| answer := "Model not loaded. Please set a valid model path first.";
           sources := [Fixture.doc_b; Fixture.doc_a; Fixture.doc_b] |}, []).
Proof.
  destruct (answer_with_context_without_model
              (snd (index_documents Fixture.fresh [Fixture.doc_a; Fixture.doc_b]))
              "b" (Some 64) eq_refl) as ((docs & Hdocs & _ & ->) & _).
  injection Hdocs as <-. reflexivity.
Defined.

(** ** Where the code departs from the design *)

Lemma Forall2_Permutation_l {A B : Type} (R : A -> B -> Prop)
    (l l' : list A) (k : list B) :
  l ≡ₚ l' -> Forall2 R l k -> exists k', k ≡ₚ k' /\ Forall2 R l' k'.
Proof.
  intros Hperm. revert k.
  induction Hperm as [| x l l' _ IH | x y l | l l' l'' _ IH1 _ IH2]; intros k Hk.
  - apply Forall2_nil_inv_l in Hk as ->. exists []. split; constructor.
  - apply Forall2_cons_inv_l in Hk as (b & k0 & Hb & Hk0 & ->).
    destruct (IH k0 Hk0) as (k' & Hperm' & Hk').
    exists (b :: k'). split; [constructor; exact Hperm' | constructor; assumption].
  - apply Forall2_cons_inv_l in Hk as (b1 & k1 & Hb1 & Hk1 & ->).
    apply Forall2_cons_inv_l in Hk1 as (b2 & k2 & Hb2 & Hk2 & ->).
    exists (b2 :: b1 :: k2). split; [apply Permutation_swap |].
    repeat constructor; assumption.
  - destruct (IH1 k Hk) as (k1 & Hp1 & Hk1).
    destruct (IH2 k1 Hk1) as (k2 & Hp2 & Hk2).
    exists k2. split; [etransitivity; eassumption | exact Hk2].
Qed.

(** Fetching the documents of the candidates in storage order gives back the
    corpus. *)
Lemma candidates_fetch_corpus (ix : faiss.IndexFlatL2) (q : vector)
    (docs found : list Document) :
  faiss.ntotal ix = length docs ->
  Forall2 (fun c doc => docs !! snd c = Some doc) (faiss.candidates ix q) found ->
  found = docs.
Proof.
  intros Hn Hall.
  pose proof (Forall2_length _ _ _ Hall) as Hlen.
  rewrite candidates_length in Hlen.
  apply (list_eq_same_length _ _ (length docs)); [reflexivity | lia |].
  intros i doc doc' _ Hdoc Hdoc'.
  destruct (Forall2_lookup_r _ _ _ _ _ Hall Hdoc) as (c & Hc & Hcd).
  unfold faiss.candidates in Hc. rewrite list_lookup_imap in Hc.
  destruct (faiss.xb ix !! i); [| discriminate]. injection Hc as <-.
  cbn in Hcd. congruence.
Qed.

(** C2 fails on the code; what the code returns instead.  On a built index
    over [n >= 1] documents and for [top_k > n], [search_documents] returns
    the [n] documents, each once, followed by [top_k - n] further copies of
    the document stored last: the labels [-1] with which the index completes
    its answer pass the test [idx < len(self.documents)] and select
    [self.documents[-1]].  The result has [top_k] entries, not [n]. *)
Theorem search_pads_with_last_document
    (self : LLMAssistant) (docs : list Document) (question : string) (top_k : Z) :
  docs <> [] ->
  Z.of_nat (length docs) < top_k ->
  exists found last_doc,
    found ≡ₚ docs /\
    last docs = Some last_doc /\
    search_documents (snd (index_documents self docs)) question top_k =
    Ok (found ++ replicate (Z.to_nat top_k - length docs) last_doc)%list /\
    (0 < Z.to_nat top_k - length docs)%nat.
Proof.
  intros Hne Hk.
  destruct (search_after_build self docs question Hne top_k) as
    (found & last_doc & Hlast & Hall & Hsearch); [lia |].
  destruct (ranking_perm_sorted self docs question Hne) as (Hlen & _ & _).
  destruct (built_fields self docs Hne) as (_ & _ & _ & _ & ix & Hix & _ & Hn).
  rewrite Hix in Hall, Hlen.
  rewrite take_ge in Hall by lia.
  exists found, last_doc. split; [| split; [exact Hlast | split; [exact Hsearch | lia]]].
  destruct (Forall2_Permutation_l
              (fun c doc => docs !! snd c = Some doc)
              _ (faiss.candidates ix (encode_one (embedding_model self) question))
              found (sort_perm _)) as (found' & Hperm & Hfound').
  { eapply Forall2_impl; [exact Hall |]. intros c doc [H _]. exact H. }
  rewrite Hperm. apply candidates_fetch_corpus in Hfound'; [| exact Hn].
  rewrite Hfound'. reflexivity.
Qed.

Lemma search_pads_with_last_document_witness :
  exists found last_doc,
    found ≡ₚ [Fixture.doc_a; Fixture.doc_b] /\
    last [Fixture.doc_a; Fixture.doc_b] = Some last_doc /\
    search_documents
      (snd (index_documents Fixture.fresh [Fixture.doc_a; Fixture.doc_b])) "b" 5
    = Ok (found ++ replicate (Z.to_nat 5 - 2) last_doc)%list /\
    (0 < Z.to_nat 5 - 2)%nat.
Proof.
  apply (search_pads_with_last_document Fixture.fresh
           [Fixture.doc_a; Fixture.doc_b] "b" 5).
  - discriminate.
  - cbn. lia.
Defined.

Example search_five_of_two :
  search_documents
    (snd (index_documents Fixture.fresh [Fixture.doc_a; Fixture.doc_b])) "b" 5
  = Ok [Fixture.doc_b; Fixture.doc_a; Fixture.doc_b; Fixture.doc_b; Fixture.doc_b].
Proof. reflexivity. Qed.

(** *** Within the corpus the order is the designed one *)

Lemma candidates_labels (ix : faiss.IndexFlatL2) (q : vector) :
  map snd (faiss.candidates ix q) = seq 0 (faiss.ntotal ix).
Proof.
  unfold faiss.candidates, faiss.ntotal.
  change (map snd) with (fmap (M := list) (@snd Q nat)).
  rewrite fmap_imap.
  rewrite (imap_ext _ (fun j _ => id j)) by reflexivity.
  rewrite imap_seq_0, list_fmap_id. reflexivity.
Qed.

Lemma distances_sorted (dist : Document -> Q) (best : list (Q * nat))
    (found : list Document) :
  Forall2 (fun c doc => fst c = dist doc) best found ->
  StronglySorted nearer best ->
  StronglySorted Qle (map dist found).
Proof.
  induction 1 as [| c doc best found Hc Hall IH]; intros Hsorted; cbn [map].
  - constructor.
  - apply StronglySorted_inv in Hsorted as [Hrest Hhead].
    constructor; [apply IH, Hrest |].
    apply Forall_map. apply Forall_forall. intros doc' Hdoc'.
    apply list_elem_of_lookup in Hdoc' as [i Hi].
    destruct (Forall2_lookup_r _ _ _ _ _ Hall Hi) as (c' & Hc' & Hcd).
    rewrite Forall_forall in Hhead.
    specialize (Hhead c' (list_elem_of_lookup_2 _ _ _ Hc')).
    apply nearer_le in Hhead. cbn. rewrite <- Hc, <- Hcd. exact Hhead.
Qed.

(** C1 fails on the code once [top_k] exceeds the corpus: two notes are
    indexed, the second one closer to the query; a search with [top_k = 3]
    returns the second, the first, and the second again, at squared
    distances 4, 25 and 4, which is not a non-decreasing sequence.  With
    [top_k = 2] the same index answers in the designed order. *)
Theorem search_padding_breaks_order :
  let built := snd (index_documents Fixture.fresh [Fixture.doc_a; Fixture.doc_b]) in
  let dist := distance_to Fixture.len_encoder "b" in
  search_documents built "b" 3 = Ok [Fixture.doc_b; Fixture.doc_a; Fixture.doc_b] /\
  map dist [Fixture.doc_b; Fixture.doc_a; Fixture.doc_b] = [4 # 1; 25 # 1; 4 # 1]%Q /\
  ~ StronglySorted Qle (map dist [Fixture.doc_b; Fixture.doc_a; Fixture.doc_b]) /\
  search_documents built "b" 2 = Ok [Fixture.doc_b; Fixture.doc_a].
Proof.
  intros built dist. split; [reflexivity |]. split; [reflexivity |].
  split; [| reflexivity].
  intros Hsorted.
  apply StronglySorted_inv in Hsorted as [Hsorted _].
  apply StronglySorted_inv in Hsorted as [_ Hhead].
  apply Forall_inv in Hhead. revert Hhead. vm_compute. intros H. apply H.
  reflexivity.
Qed.

(** *** An empty corpus *)

(** X3.  On a corpus that holds at least one document the build does what the
    design says: both collections are replaced together, they have the same
    length, and the count is returned. *)
Lemma index_documents_rebuilds (self : LLMAssistant) (docs : list Document) :
  docs <> [] ->
  let '(count, self') := index_documents self docs in
  count = Ok (length docs) /\
  documents self' = docs /\
  (exists ix, index self' = Some ix /\
     faiss.xb ix = map (fun doc => encode_one (embedding_model self)
                                     (document_text doc)) docs /\
     faiss.ntotal ix = length (documents self')) /\
  model self' = model self /\ model_path self' = model_path self.
Proof.
  intros Hne.
  destruct (index_documents_nonempty self docs Hne) as [dim ->].
  cbn. repeat split. eexists. split; [reflexivity |].
  unfold faiss.ntotal, encode. cbn. rewrite map_map, length_map.
  split; reflexivity.
Qed.

(** C8 fails on the code for the empty corpus: [index_documents] has already
    replaced the document list when reading the second axis of the empty
    array of embeddings raises [IndexError]; no count is returned and the
    index of the previous build stays.  After building over two notes and
    then over none, the assistant holds no document and two vectors. *)
Theorem index_documents_empty_corpus_desync :
  (forall self,
     index_documents self [] =
     (Raise (IndexError "tuple index out of range"), set_documents self [])) /\
  let built := snd (index_documents Fixture.fresh [Fixture.doc_a; Fixture.doc_b]) in
  let after := snd (index_documents built []) in
  raises (fst (index_documents built [])) /\
  documents after = [] /\
  option_map faiss.ntotal (index after) = Some 2%nat /\
  index after = index built.
Proof.
  split; [intros self; apply index_documents_empty |].
  cbv zeta. repeat split.
Qed.

(** C6 fails on the code for the empty store: the endpoint rebuilds the index
    first, and the build raises on no notes, with or without a model, before
    either branch is reached.  On a store that holds notes the two branches
    behave as designed ([ask_llm_without_model], [ask_llm_with_model]). *)
Theorem ask_llm_empty_store_raises (llm_assistant : LLMAssistant) (q : LLMQuery) :
  ask_llm llm_assistant [] q =
  (Raise (IndexError "tuple index out of range"),
   set_documents llm_assistant [], []).
Proof. reflexivity. Qed.

Example ask_without_model :
  fst (fst (ask_llm Fixture.fresh [Fixture.note_a; Fixture.note_b]
              {| query := "b"; max_tokens := Some 512 |}))
  = Ok {| answer := no_model_loaded;
          sources := [Fixture.doc_b; Fixture.doc_a; Fixture.doc_b;
                      Fixture.doc_b; Fixture.doc_b] |}.
Proof. reflexivity. Qed.

Example ask_with_model :
  fst (fst (ask_llm
              (set_model Fixture.fresh
                 (Some (Fixture.constant_llama "42" "/models/phi.gguf" minimal_params)))
              [Fixture.note_a; Fixture.note_b]
              {| query := "b"; max_tokens := Some 512 |}))
  = Ok {| answer := "42";
          sources := [Fixture.doc_b; Fixture.doc_a; Fixture.doc_b] |}.
Proof. reflexivity. Qed.

(** * Further properties *)

(** ** White space and suffixes *)

Lemma endswith_spec (suffix s : string) :
  PyStr.endswith suffix s = true <-> exists u, s = u ++ suffix.
Proof.
  induction s as [| c s IH]; cbn [PyStr.endswith].
  - rewrite orb_false_r, String.eqb_eq. split.
    + intros <-. exists "". reflexivity.
    + intros [u Hu]. destruct u; [exact Hu | discriminate].
  - rewrite orb_true_iff, String.eqb_eq, IH. split.
    + intros [<- | [u ->]]; [exists ""; reflexivity | exists (String c u); reflexivity].
    + intros [[| c' u] Hu]; [left; exact Hu | right].
      injection Hu as -> ->. exists u. reflexivity.
Qed.

(** *** White space is recognised by its first byte *)

Lemma is_space2_first (c1 c2 : ascii) :
  PyStr.is_space2 c1 c2 = true -> PyStr.is_space c1 = false.
Proof.
  unfold PyStr.is_space2, PyStr.is_space. cbv zeta.
  intros H. apply andb_true_iff in H as [H _]. apply N.eqb_eq in H.
  rewrite H. reflexivity.
Qed.

Lemma is_space3_first (c1 c2 c3 : ascii) :
  PyStr.is_space3 c1 c2 c3 = true ->
  PyStr.is_space c1 = false /\ forall c, PyStr.is_space2 c1 c = false.
Proof.
  unfold PyStr.is_space3, PyStr.is_space2, PyStr.is_space. cbv zeta.
  intros H.
  assert (N_of_ascii c1 = 225 \/ N_of_ascii c1 = 226 \/ N_of_ascii c1 = 227)%N
    as Ha.
  { repeat (apply orb_true_iff in H as [H | H]);
      apply andb_true_iff in H as [H _]; apply N.eqb_eq in H; auto. }
  destruct Ha as [-> | [-> | ->]]; split; reflexivity.
Qed.

(** *** Stripping on the left *)

Lemma lstrip_1 (c : ascii) (r : string) :
  PyStr.is_space c = true -> PyStr.lstrip (String c r) = PyStr.lstrip r.
Proof. intros H. cbn [PyStr.lstrip]. rewrite H. reflexivity. Qed.

Lemma lstrip_2 (c1 c2 : ascii) (r : string) :
  PyStr.is_space2 c1 c2 = true ->
  PyStr.lstrip (String c1 (String c2 r)) = PyStr.lstrip r.
Proof.
  intros H.
  change (PyStr.lstrip (String c1 (String c2 r))) with
    (if PyStr.is_space c1 then PyStr.lstrip (String c2 r)
     else if PyStr.is_space2 c1 c2 then PyStr.lstrip r
          else match r with
               | EmptyString => String c1 (String c2 r)
               | String c3 r3 =>
                   if PyStr.is_space3 c1 c2 c3 then PyStr.lstrip r3
                   else String c1 (String c2 r)
               end).
  rewrite (is_space2_first _ _ H), H. reflexivity.
Qed.

Lemma lstrip_3 (c1 c2 c3 : ascii) (r : string) :
  PyStr.is_space3 c1 c2 c3 = true ->
  PyStr.lstrip (String c1 (String c2 (String c3 r))) = PyStr.lstrip r.
Proof.
  intros H. destruct (is_space3_first _ _ _ H) as [H1 H2].
  change (PyStr.lstrip (String c1 (String c2 (String c3 r)))) with
    (if PyStr.is_space c1 then PyStr.lstrip (String c2 (String c3 r))
     else if PyStr.is_space2 c1 c2 then PyStr.lstrip (String c3 r)
          else if PyStr.is_space3 c1 c2 c3 then PyStr.lstrip r
               else String c1 (String c2 (String c3 r))).
  rewrite H1, H2, H. reflexivity.
Qed.

Lemma lstrip_spaces (w r : string) :
  StrSpec.Spaces w -> PyStr.lstrip (w ++ r) = PyStr.lstrip r.
Proof.
  induction 1 as [| c w Hc _ IH | c1 c2 w Hc _ IH | c1 c2 c3 w Hc _ IH].
  - reflexivity.
  - change (PyStr.lstrip (String c (w ++ r)) = PyStr.lstrip r).
    rewrite lstrip_1 by exact Hc. exact IH.
  - change (PyStr.lstrip (String c1 (String c2 (w ++ r))) = PyStr.lstrip r).
    rewrite lstrip_2 by exact Hc. exact IH.
  - change (PyStr.lstrip (String c1 (String c2 (String c3 (w ++ r))))
            = PyStr.lstrip r).
    rewrite lstrip_3 by exact Hc. exact IH.
Qed.

(** One step of [lstrip]. *)
Lemma lstrip_step (s : string) :
  PyStr.lstrip s =
  match PyStr.space_prefix s with
  | Some r => PyStr.lstrip r
  | None => s
  end.
Proof.
  destruct s as [| c1 r1]; [reflexivity |].
  unfold PyStr.space_prefix.
  destruct (PyStr.is_space c1) eqn:E1; [apply lstrip_1, E1 |].
  destruct r1 as [| c2 r2]; [cbn [PyStr.lstrip]; rewrite E1; reflexivity |].
  destruct (PyStr.is_space2 c1 c2) eqn:E2; [apply lstrip_2, E2 |].
  destruct r2 as [| c3 r3];
    [cbn [PyStr.lstrip]; rewrite E1, E2; reflexivity |].
  destruct (PyStr.is_space3 c1 c2 c3) eqn:E3; [apply lstrip_3, E3 |].
  change (PyStr.lstrip (String c1 (String c2 (String c3 r3)))) with
    (if PyStr.is_space c1 then PyStr.lstrip (String c2 (String c3 r3))
     else if PyStr.is_space2 c1 c2 then PyStr.lstrip (String c3 r3)
          else if PyStr.is_space3 c1 c2 c3 then PyStr.lstrip r3
               else String c1 (String c2 (String c3 r3))).
  rewrite E1, E2, E3. reflexivity.
Qed.

Lemma space_prefix_spec (s r : string) :
  PyStr.space_prefix s = Some r ->
  exists w, s = w ++ r /\ w <> "" /\ StrSpec.Spaces w /\
            (String.length r < String.length s)%nat.
Proof.
  destruct s as [| c1 r1]; [discriminate |]. unfold PyStr.space_prefix.
  destruct (PyStr.is_space c1) eqn:E1.
  { intros [= <-]. exists (String c1 ""). repeat split; try discriminate.
    - constructor; [exact E1 | constructor].
    - cbn. lia. }
  destruct r1 as [| c2 r2]; [discriminate |].
  destruct (PyStr.is_space2 c1 c2) eqn:E2.
  { intros [= <-]. exists (String c1 (String c2 "")).
    repeat split; try discriminate.
    - apply StrSpec.Spaces_2; [exact E2 | constructor].
    - cbn. lia. }
  destruct r2 as [| c3 r3]; [discriminate |].
  destruct (PyStr.is_space3 c1 c2 c3) eqn:E3; [| discriminate].
  intros [= <-]. exists (String c1 (String c2 (String c3 ""))).
  repeat split; try discriminate.
  - apply StrSpec.Spaces_3; [exact E3 | constructor].
  - cbn. lia.
Qed.

Lemma spaces_app (u v : string) :
  StrSpec.Spaces u -> StrSpec.Spaces v -> StrSpec.Spaces (u ++ v).
Proof.
  induction 1 as [| c w Hc _ IH | c1 c2 w Hc _ IH | c1 c2 c3 w Hc _ IH];
    intros Hv.
  - exact Hv.
  - change (StrSpec.Spaces (String c (w ++ v))). constructor; auto.
  - change (StrSpec.Spaces (String c1 (String c2 (w ++ v)))).
    apply StrSpec.Spaces_2; auto.
  - change (StrSpec.Spaces (String c1 (String c2 (String c3 (w ++ v))))).
    apply StrSpec.Spaces_3; auto.
Qed.

Lemma string_app_nil_r (s : string) : s ++ "" = s.
Proof.
  induction s as [| c s IH]; [reflexivity |].
  change (String c (s ++ "") = String c s). f_equal. exact IH.
Qed.

Lemma lstrip_facts (n : nat) (s : string) :
  (String.length s <= n)%nat ->
  (exists u, s = u ++ PyStr.lstrip s /\ StrSpec.Spaces u) /\
  PyStr.space_prefix (PyStr.lstrip s) = None.
Proof.
  revert s. induction n as [| n IH]; intros s Hlen.
  - destruct s; [| cbn in Hlen; lia].
    split; [exists ""; split; [reflexivity | constructor] | reflexivity].
  - rewrite lstrip_step. destruct (PyStr.space_prefix s) as [r |] eqn:E.
    + destruct (space_prefix_spec s r E) as (w & -> & _ & Hw & Hlt).
      destruct (IH r) as [(u & Hu & Hsu) Hnone]; [lia |].
      split; [| exact Hnone].
      exists (w ++ u). split; [| apply spaces_app; assumption].
      rewrite string_app_assoc. f_equal. exact Hu.
    + split; [exists ""; split; [reflexivity | constructor] | exact E].
Qed.

Lemma lstrip_split (s : string) :
  exists u, s = u ++ PyStr.lstrip s /\ StrSpec.Spaces u.
Proof. apply (lstrip_facts (String.length s) s). lia. Qed.

Lemma lstrip_no_space (s : string) :
  PyStr.space_prefix (PyStr.lstrip s) = None.
Proof. apply (lstrip_facts (String.length s) s). lia. Qed.

Lemma lstrip_empty_iff (s : string) :
  PyStr.lstrip s = "" <-> StrSpec.Spaces s.
Proof.
  split.
  - intros H0. destruct (lstrip_split s) as (u & Hu & Hsu).
    rewrite H0, string_app_nil_r in Hu. subst u. exact Hsu.
  - intros Hs. rewrite <- (string_app_nil_r s). apply (lstrip_spaces s ""), Hs.
Qed.

(** A text that begins with white space is shortened by [lstrip]. *)
Lemma begins_with_space_prefix (s : string) :
  StrSpec.begins_with_space s -> PyStr.space_prefix s <> None.
Proof.
  intros (w & r & -> & Hne & Hw).
  destruct Hw as [| c w Hc _ | c1 c2 w Hc _ | c1 c2 c3 w Hc _];
    [congruence | | |].
  - change (PyStr.space_prefix (String c (w ++ r)) <> None).
    unfold PyStr.space_prefix. rewrite Hc. discriminate.
  - change (PyStr.space_prefix (String c1 (String c2 (w ++ r))) <> None).
    unfold PyStr.space_prefix. rewrite (is_space2_first _ _ Hc), Hc. discriminate.
  - change (PyStr.space_prefix (String c1 (String c2 (String c3 (w ++ r))))
            <> None).
    destruct (is_space3_first _ _ _ Hc) as [H1 H2].
    unfold PyStr.space_prefix. rewrite H1, H2, Hc. discriminate.
Qed.

Lemma space_prefix_begins (s : string) :
  PyStr.space_prefix s <> None -> StrSpec.begins_with_space s.
Proof.
  destruct (PyStr.space_prefix s) as [r |] eqn:E; [| congruence]. intros _.
  destruct (space_prefix_spec s r E) as (w & Hs & Hne & Hw & _).
  exists w, r. auto.
Qed.

Lemma lstrip_fixed (s : string) :
  ~ StrSpec.begins_with_space s -> PyStr.lstrip s = s.
Proof.
  intros H. rewrite lstrip_step.
  destruct (PyStr.space_prefix s) as [r |] eqn:E; [| reflexivity].
  exfalso. apply H, space_prefix_begins. congruence.
Qed.

(** *** Stripping on the right *)

Lemma rstrip_split (s : string) :
  exists w, s = PyStr.rstrip s ++ w /\ StrSpec.Spaces w.
Proof.
  induction s as [| c s (w & Hw & Hsw)]; [exists ""; split; [reflexivity | constructor] |].
  cbn [PyStr.rstrip].
  destruct (String.eqb_spec (PyStr.lstrip (String c s)) "") as [H0 | _].
  - exists (String c s). split; [reflexivity | apply lstrip_empty_iff, H0].
  - exists w. split; [| exact Hsw].
    change (String c s = String c (PyStr.rstrip s ++ w)). f_equal. exact Hw.
Qed.

Lemma rstrip_no_space (s : string) : ~ StrSpec.ends_with_space (PyStr.rstrip s).
Proof.
  induction s as [| c s IH]; intros (u & w & Hs & Hne & Hw).
  - destruct u; [| discriminate]. change ("" = w) in Hs. congruence.
  - cbn [PyStr.rstrip] in Hs.
    destruct (String.eqb_spec (PyStr.lstrip (String c s)) "") as [H0 | Hnot].
    + destruct u; [change ("" = w) in Hs; congruence | discriminate].
    + destruct u as [| c' u].
      * change (String c (PyStr.rstrip s) = w) in Hs.
        destruct (rstrip_split s) as (w' & Hw' & Hsw').
        apply Hnot, lstrip_empty_iff.
        replace (String c s) with (w ++ w');
          [apply spaces_app; assumption |].
        rewrite <- Hs. change (String c (PyStr.rstrip s ++ w') = String c s).
        f_equal. symmetry. exact Hw'.
      * change (String c (PyStr.rstrip s) = String c' (u ++ w)) in Hs.
        injection Hs as _ Hs. apply IH. exists u, w. auto.
Qed.

Lemma rstrip_fixed (s : string) :
  ~ StrSpec.ends_with_space s -> PyStr.rstrip s = s.
Proof.
  induction s as [| c s IH]; intros H; [reflexivity |]. cbn [PyStr.rstrip].
  destruct (String.eqb_spec (PyStr.lstrip (String c s)) "") as [H0 | _].
  - exfalso. apply H. exists "", (String c s).
    split; [reflexivity |]. split; [discriminate | apply lstrip_empty_iff, H0].
  - f_equal. apply IH. intros (u & w & Hs & Hne & Hw). apply H.
    exists (String c u), w. split; [| auto].
    change (String c s = String c (u ++ w)). f_equal. exact Hs.
Qed.

(** [rstrip] brings no white space to the front. *)
Lemma rstrip_keeps_front (s : string) :
  ~ StrSpec.begins_with_space s -> ~ StrSpec.begins_with_space (PyStr.rstrip s).
Proof.
  intros H (w & r & Hs & Hne & Hw). apply H.
  destruct (rstrip_split s) as (w' & Hw' & _).
  exists w, (r ++ w'). split; [| auto].
  rewrite Hw' at 1. rewrite Hs. apply string_app_assoc.
Qed.

Lemma strip_trimmed (s : string) : StrSpec.trimmed (PyStr.strip s).
Proof.
  split; [| apply rstrip_no_space].
  apply rstrip_keeps_front. intros H.
  apply begins_with_space_prefix in H. apply H, lstrip_no_space.
Qed.

Lemma strip_fixed (s : string) : StrSpec.trimmed s -> PyStr.strip s = s.
Proof.
  intros [H1 H2]. unfold PyStr.strip.
  rewrite (lstrip_fixed s H1). apply rstrip_fixed, H2.
Qed.

Lemma strip_between (s : string) :
  exists u w, s = u ++ PyStr.strip s ++ w /\
              StrSpec.Spaces u /\ StrSpec.Spaces w.
Proof.
  destruct (lstrip_split s) as (u & Hu & Hsu).
  destruct (rstrip_split (PyStr.lstrip s)) as (w & Hw & Hsw).
  exists u, w. unfold PyStr.strip. rewrite <- Hw. auto.
Qed.

Lemma strip_empty_iff (s : string) :
  PyStr.strip s = "" <-> StrSpec.Spaces s.
Proof.
  split.
  - intros H0. destruct (strip_between s) as (u & w & Hs & Hu & Hw).
    rewrite Hs, H0. apply spaces_app; assumption.
  - intros Hs. unfold PyStr.strip.
    apply lstrip_empty_iff in Hs. rewrite Hs. reflexivity.
Qed.

(** [strip] removes the white space at both ends and nothing else: the
    argument is the result between two runs of white space characters, the
    result has no white space at either end, it is empty exactly when the
    argument is white space only, and stripping twice is stripping once. *)
Theorem strip_spec (s : string) :
  (exists u w, s = u ++ PyStr.strip s ++ w /\
               StrSpec.Spaces u /\ StrSpec.Spaces w) /\
  StrSpec.trimmed (PyStr.strip s) /\
  (PyStr.strip s = "" <-> StrSpec.Spaces s) /\
  PyStr.strip (PyStr.strip s) = PyStr.strip s.
Proof.
  split; [apply strip_between |]. split; [apply strip_trimmed |].
  split; [apply strip_empty_iff | apply strip_fixed, strip_trimmed].
Qed.

(** ** Validation of notes *)

(** X8.  The two validators of [NoteBase] raise [ValueError], each with its
    own message, exactly for the values made of white space characters only
    (Python's white space, the non-breaking space and the other Unicode
    spaces included; the empty value too); an accepted value is stored
    stripped, is not empty, has no white space at either end, and passes the
    validator unchanged when validated again (as [add_note] does, which
    validates the request and then the row). *)
Theorem note_validators_spec (v : string) :
  match title_must_not_be_empty v with
  | ValueError msg =>
      StrSpec.Spaces v /\ msg = "Title cannot be empty"
  | Valid t =>
      ~ StrSpec.Spaces v /\ t = PyStr.strip v /\ t <> "" /\
      StrSpec.trimmed t /\ title_must_not_be_empty t = Valid t
  end /\
  match content_must_not_be_empty v with
  | ValueError msg =>
      StrSpec.Spaces v /\ msg = "Content cannot be empty"
  | Valid t =>
      ~ StrSpec.Spaces v /\ t = PyStr.strip v /\ t <> "" /\
      StrSpec.trimmed t /\ content_must_not_be_empty t = Valid t
  end.
Proof.
  pose proof (strip_trimmed v) as Htrim.
  pose proof (strip_empty_iff v) as Hempty.
  pose proof (strip_fixed _ (strip_trimmed v)) as Hidem.
  unfold title_must_not_be_empty, content_must_not_be_empty.
  destruct (String.eqb_spec v "") as [-> | Hv].
  - cbn. repeat split; constructor.
  - cbn [orb]. destruct (String.eqb_spec (PyStr.strip v) "") as [H0 | Hne].
    + apply Hempty in H0. repeat split; exact H0.
    + assert (~ StrSpec.Spaces v) as Hall by (intros H; apply Hne, Hempty, H).
      rewrite Hidem.
      destruct (String.eqb_spec (PyStr.strip v) "") as [H0 | _]; [contradiction |].
      rewrite orb_false_r.
      destruct (String.eqb_spec (PyStr.strip v) "") as [H0 | _]; [contradiction |].
      split;
        (split; [exact Hall |]; split; [reflexivity |]; split; [exact Hne |];
         split; [exact Htrim | reflexivity]).
Qed.

Example title_of_unicode_space :
  title_must_not_be_empty Sample.nbsp = ValueError "Title cannot be empty" /\
  title_must_not_be_empty (Sample.nbsp ++ "x" ++ Sample.nbsp) = Valid "x".
Proof. split; reflexivity. Qed.

(** ** Paths *)

Lemma startswith_slash (c : ascii) (r : string) :
  Str.startswith "/" (String c r) = Ascii.eqb c "/"%char.
Proof.
  change (Ascii.eqb "/" c && true = Ascii.eqb c "/").
  rewrite andb_true_r. apply Ascii.eqb_sym.
Qed.

Lemma no_slash_cons (c : ascii) (r : string) :
  Str.contains "/" (String c r) = false ->
  Ascii.eqb c "/"%char = false /\ Str.contains "/" r = false.
Proof.
  cbn [Str.contains]. rewrite startswith_slash. apply orb_false_iff.
Qed.

Lemma basename_no_slash (s : string) :
  Str.contains "/" s = false -> Str.basename s = s.
Proof.
  destruct s as [| c r]; [reflexivity |]. intros H.
  apply no_slash_cons in H as [Hc Hr]. cbn [Str.basename].
  rewrite Hc, Hr. reflexivity.
Qed.

Lemma contains_slash_app (u v : string) :
  Str.contains "/" (u ++ "/" ++ v) = true.
Proof. apply contains_spec. exists u, v. reflexivity. Qed.

Lemma basename_after_slash (u name : string) :
  Str.contains "/" name = false -> Str.basename (u ++ "/" ++ name) = name.
Proof.
  intros Hname. induction u as [| c u IH].
  - change (Str.basename (String "/" name) = name). cbn [Str.basename].
    rewrite Ascii.eqb_refl. apply basename_no_slash, Hname.
  - change (Str.basename (String c (u ++ "/" ++ name)) = name).
    cbn [Str.basename]. rewrite contains_slash_app, IH.
    destruct (Ascii.eqb c "/"); reflexivity.
Qed.

Lemma join_no_slash (dir name : string) :
  Str.contains "/" name = false ->
  os_path.join dir name = name \/
  exists u, os_path.join dir name = u ++ "/" ++ name.
Proof.
  intros Hname. unfold os_path.join.
  assert (Str.startswith "/" name = false) as ->.
  { destruct name as [| c r]; [reflexivity |].
    apply no_slash_cons in Hname as [Hc _]. rewrite startswith_slash. exact Hc. }
  destruct (String.eqb_spec dir "") as [-> | Hdir]; [left; reflexivity |].
  cbn [orb]. destruct (PyStr.endswith "/" dir) eqn:E.
  - apply endswith_spec in E as [u ->]. right. exists u.
    apply string_app_assoc.
  - right. exists dir. reflexivity.
Qed.

Lemma basename_of_join (dir name : string) :
  Str.contains "/" name = false ->
  Str.basename (os_path.join dir name) = name.
Proof.
  intros Hname. destruct (join_no_slash dir name Hname) as [-> | [u ->]].
  - apply basename_no_slash, Hname.
  - apply basename_after_slash, Hname.
Qed.

(** X9.  Joining a directory and a file name that holds no slash, then taking the
    base name, gives the file name back; so the parameters derived for a
    model do not depend on the directory it is stored in. *)
Theorem basename_join (dir name : string) :
  Str.contains "/" name = false ->
  Str.basename (os_path.join dir name) = name /\
  _get_model_params (os_path.join dir name) = _get_model_params name.
Proof.
  intros Hname. split; [apply basename_of_join, Hname |].
  rewrite !get_model_params_unfold. cbv zeta.
  rewrite (basename_of_join dir name Hname), (basename_no_slash name Hname).
  reflexivity.
Qed.

Lemma basename_join_witness :
  Str.basename (os_path.join "/srv/app/models/" "Phi-3-mini.Q4_0.gguf")
  = "Phi-3-mini.Q4_0.gguf" /\
  _get_model_params (os_path.join "/srv/app/models/" "Phi-3-mini.Q4_0.gguf")
  = _get_model_params "Phi-3-mini.Q4_0.gguf".
Proof. apply basename_join. reflexivity. Defined.

(** ** Listing the models *)

Section Listing.

Variable MODELS_DIR : string.
Variable os_path_exists : string -> bool.
Variable os_listdir : string -> list string.

Lemma list_models_loop_spec (active : option string) (listing : list string) :
  map ModelInfo.name (list_models_loop MODELS_DIR active listing)
  = List.filter (PyStr.endswith ".gguf") listing /\
  Forall (fun m =>
            ModelInfo.path m = os_path.join MODELS_DIR (ModelInfo.name m) /\
            ModelInfo.is_active m =
            match active with
            | Some a => String.eqb (ModelInfo.name m) a
            | None => false
            end)
    (list_models_loop MODELS_DIR active listing).
Proof.
  induction listing as [| f rest [IH1 IH2]]; cbn [list_models_loop List.filter].
  - split; constructor.
  - destruct (PyStr.endswith ".gguf" f); [| split; assumption].
    cbn [map]. rewrite IH1. split; [reflexivity |].
    constructor; [split; reflexivity | exact IH2].
Qed.

Lemma list_models_loop_inactive (a : string) (listing : list string) :
  a ∉ listing ->
  List.filter ModelInfo.is_active (list_models_loop MODELS_DIR (Some a) listing) = [].
Proof.
  induction listing as [| f rest IH]; intros Hnotin; [reflexivity |].
  apply not_elem_of_cons in Hnotin as [Hne Hrest].
  cbn [list_models_loop]. destruct (PyStr.endswith ".gguf" f); [| apply IH, Hrest].
  cbn [List.filter ModelInfo.is_active].
  destruct (String.eqb_spec f a) as [-> | _]; [congruence | apply IH, Hrest].
Qed.

Lemma list_models_entries (llm_assistant : LLMAssistant) :
  Forall (fun m =>
            ModelInfo.path m = os_path.join MODELS_DIR (ModelInfo.name m) /\
            ModelInfo.is_active m =
            match model_path llm_assistant with
            | Some p => negb (String.eqb p "") &&
                        String.eqb (ModelInfo.name m) (Str.basename p)
            | None => false
            end)
    (list_models MODELS_DIR os_path_exists os_listdir llm_assistant).
Proof.
  unfold list_models. destruct (os_path_exists MODELS_DIR); [| constructor].
  cbv zeta.
  match goal with
  | |- context [list_models_loop _ ?a _] =>
      destruct (list_models_loop_spec a (os_listdir MODELS_DIR)) as [_ H2]
  end.
  eapply Forall_impl; [exact H2 |]. intros m [Hp Ha]. split; [exact Hp |].
  rewrite Ha. destruct (model_path llm_assistant) as [p |]; [| reflexivity].
  destruct (String.eqb p ""); reflexivity.
Qed.

(** X10.  [list_models] reports the entries of the directory whose name ends in
    [.gguf], in the order of the listing, each with its path under the
    directory; an entry is marked active exactly when its name is the base
    name of the stored model path, whether or not a model is loaded; with no
    stored path, or when the directory is missing, nothing is active. *)
Theorem list_models_spec (llm_assistant : LLMAssistant) :
  let models := list_models MODELS_DIR os_path_exists os_listdir llm_assistant in
  map ModelInfo.name models =
    (if os_path_exists MODELS_DIR
     then List.filter (PyStr.endswith ".gguf") (os_listdir MODELS_DIR)
     else []) /\
  Forall (fun m =>
            ModelInfo.path m = os_path.join MODELS_DIR (ModelInfo.name m) /\
            ModelInfo.is_active m =
            match model_path llm_assistant with
            | Some p => negb (String.eqb p "") &&
                        String.eqb (ModelInfo.name m) (Str.basename p)
            | None => false
            end) models.
Proof.
  split; [| apply list_models_entries].
  unfold list_models. destruct (os_path_exists MODELS_DIR); [| reflexivity].
  cbv zeta.
  match goal with
  | |- context [list_models_loop _ ?a _] =>
      destruct (list_models_loop_spec a (os_listdir MODELS_DIR)) as [H1 _]
  end.
  exact H1.
Qed.

(** X11.  When the listing names no file twice, at most one model is reported as
    active. *)
Theorem list_models_one_active (llm_assistant : LLMAssistant) :
  NoDup (os_listdir MODELS_DIR) ->
  (length (List.filter ModelInfo.is_active
             (list_models MODELS_DIR os_path_exists os_listdir llm_assistant))
   <= 1)%nat.
Proof.
  intros Hnodup. unfold list_models.
  destruct (os_path_exists MODELS_DIR); [| cbn; lia].
  cbv zeta. generalize (os_listdir MODELS_DIR) Hnodup. clear Hnodup.
  intros listing Hnodup.
  match goal with
  | |- context [list_models_loop _ ?active _] => destruct active as [a |]
  end.
  - induction Hnodup as [| f rest Hnotin _ IH]; [cbn; lia |].
    cbn [list_models_loop]. destruct (PyStr.endswith ".gguf" f); [| exact IH].
    cbn [List.filter ModelInfo.is_active].
    destruct (String.eqb_spec f a) as [-> | _]; [| exact IH].
    rewrite (list_models_loop_inactive a rest Hnotin). cbn. lia.
  - induction listing as [| f rest IH]; [cbn; lia |].
    apply NoDup_cons in Hnodup as [_ Hrest].
    cbn [list_models_loop]. destruct (PyStr.endswith ".gguf" f); [| apply IH, Hrest].
    cbn [List.filter ModelInfo.is_active]. apply IH, Hrest.
Qed.

End Listing.

Lemma list_models_one_active_witness :
  (length (List.filter ModelInfo.is_active
             (list_models Sample.MODELS_DIR Sample.os_path_exists Sample.os_listdir
                (set_model_path_field Fixture.fresh (Some "/models/phi.gguf"))))
   <= 1)%nat.
Proof.
  apply list_models_one_active.
  apply (bool_decide_unpack _). reflexivity.
Defined.

Example list_models_sample :
  list_models Sample.MODELS_DIR Sample.os_path_exists Sample.os_listdir
    (set_model_path_field Fixture.fresh (Some "/models/phi.gguf"))
  = [ {| ModelInfo.name := "llama-2.gguf"; ModelInfo.path := "/models/llama-2.gguf";
         ModelInfo.is_active := false |};
      {| ModelInfo.name := "phi.gguf"; ModelInfo.path := "/models/phi.gguf";
         ModelInfo.is_active := true |} ].
Proof. reflexivity. Qed.

(** ** Uploading a model *)

Lemma endswith_app (u suffix : string) : PyStr.endswith suffix (u ++ suffix) = true.
Proof. apply endswith_spec. exists u. reflexivity. Qed.

(** X12.  [upload_model] looks at the suffix of the uploaded file's own name only
    (case-sensitively): without [.gguf] the request is refused with status
    400 and no write is asked for.  Otherwise exactly one write is asked
    for, of the uploaded content, under a name that always ends in [.gguf]:
    the stripped [model_name] (white space in the sense of Python, Unicode
    spaces included), or the file's name when [model_name] is empty, with
    [.gguf] appended when it is missing.  The request is answered with the
    message and the path when the write succeeds; when [open] or the copy
    raises, the exception leaves the endpoint. *)
Theorem upload_model_naming (MODELS_DIR : string)
    (os_write : string -> string -> os_outcome) (file : UploadFile.t)
    (model_name : string) :
  let wanted := if String.eqb model_name "" then UploadFile.filename file
                else PyStr.strip model_name in
  let '(outcome, effects) := upload_model MODELS_DIR os_write file model_name in
  if PyStr.endswith ".gguf" (UploadFile.filename file) then
    exists save_name,
      let save_path := os_path.join MODELS_DIR save_name in
      effects = [FsWrite save_path (UploadFile.file file)] /\
      PyStr.endswith ".gguf" save_name = true /\
      save_name = (if PyStr.endswith ".gguf" wanted then wanted
                   else wanted ++ ".gguf") /\
      outcome =
        match os_write save_path (UploadFile.file file) with
        | OsDone =>
            Served (Http_ok ("Model " ++ save_name ++ " uploaded successfully",
                             save_path))
        | OsRaise error => Uncaught error
        end
  else
    outcome =
      Served (HTTPException 400
                "Invalid model file. Only .gguf files are supported.") /\
    effects = [].
Proof.
  intros wanted. unfold upload_model. fold wanted.
  destruct (PyStr.endswith ".gguf" (UploadFile.filename file)); cbn [negb];
    [| split; reflexivity].
  destruct (PyStr.endswith ".gguf" wanted) eqn:E; cbn [negb].
  - exists wanted. cbv zeta. split; [reflexivity |]. split; [exact E |].
    split; [reflexivity |].
    destruct (os_write (os_path.join MODELS_DIR wanted) (UploadFile.file file));
      reflexivity.
  - exists (wanted ++ ".gguf"). cbv zeta. split; [reflexivity |].
    split; [apply endswith_app |]. split; [reflexivity |].
    destruct (os_write (os_path.join MODELS_DIR (wanted ++ ".gguf"))
                (UploadFile.file file)); reflexivity.
Qed.

Lemma startswith_app (p s t : string) :
  Str.startswith p s = true -> Str.startswith p (s ++ t) = true.
Proof.
  rewrite !startswith_spec. intros [v ->]. exists (v ++ t).
  apply string_app_assoc.
Qed.

(** X13.  A requested name that begins with a slash once it is stripped is taken
    as it is: the one write of the request is asked for at that absolute
    path, whatever the models directory, and the request is answered with
    that path when the write succeeds (the exception of the write leaves the
    endpoint when it does not). *)
Theorem upload_model_absolute_name (MODELS_DIR : string)
    (os_write : string -> string -> os_outcome) (file : UploadFile.t)
    (model_name : string) :
  let wanted := if String.eqb model_name "" then UploadFile.filename file
                else PyStr.strip model_name in
  PyStr.endswith ".gguf" (UploadFile.filename file) = true ->
  Str.startswith "/" wanted = true ->
  exists save_name,
    Str.startswith "/" save_name = true /\
    upload_model MODELS_DIR os_write file model_name =
    (match os_write save_name (UploadFile.file file) with
     | OsDone =>
         Served (Http_ok ("Model " ++ save_name ++ " uploaded successfully",
                          save_name))
     | OsRaise error => Uncaught error
     end,
     [FsWrite save_name (UploadFile.file file)]).
Proof.
  intros wanted Hext Habs. unfold upload_model. fold wanted.
  rewrite Hext. cbn [negb].
  set (save_name := if negb (PyStr.endswith ".gguf" wanted)
                    then wanted ++ ".gguf" else wanted).
  assert (Hs : Str.startswith "/" save_name = true).
  { unfold save_name. destruct (PyStr.endswith ".gguf" wanted); cbn [negb];
      [exact Habs | apply startswith_app, Habs]. }
  exists save_name. split; [exact Hs |].
  unfold os_path.join. rewrite Hs.
  destruct (os_write save_name (UploadFile.file file)); reflexivity.
Qed.

Lemma upload_model_absolute_name_witness :
  exists save_name,
    Str.startswith "/" save_name = true /\
    upload_model Sample.MODELS_DIR Sample.os_write Sample.upload
      Sample.padded_name =
    (match Sample.os_write save_name (UploadFile.file Sample.upload) with
     | OsDone =>
         Served (Http_ok ("Model " ++ save_name ++ " uploaded successfully",
                          save_name))
     | OsRaise error => Uncaught error
     end,
     [FsWrite save_name (UploadFile.file Sample.upload)]).
Proof.
  apply (upload_model_absolute_name Sample.MODELS_DIR Sample.os_write
           Sample.upload Sample.padded_name); reflexivity.
Defined.

Example upload_model_sample :
  upload_model Sample.MODELS_DIR Sample.os_write Sample.upload "  tiny llama " =
  (Served (Http_ok ("Model tiny llama.gguf uploaded successfully",
                    "/models/tiny llama.gguf")),
   [FsWrite "/models/tiny llama.gguf" "GGUF"]).
Proof. reflexivity. Qed.

Example upload_model_unicode_space :
  upload_model Sample.MODELS_DIR Sample.os_write Sample.upload
    (Sample.nbsp ++ "x") =
  (Served (Http_ok ("Model x.gguf uploaded successfully", "/models/x.gguf")),
   [FsWrite "/models/x.gguf" "GGUF"]).
Proof. reflexivity. Qed.

Example upload_model_absolute_sample :
  upload_model Sample.MODELS_DIR Sample.os_write Sample.upload
    Sample.padded_name =
  (Served (Http_ok ("Model /etc/cron.d/job.gguf uploaded successfully",
                    "/etc/cron.d/job.gguf")),
   [FsWrite "/etc/cron.d/job.gguf" "GGUF"]).
Proof. reflexivity. Qed.

Example upload_model_missing_directory :
  upload_model Sample.MODELS_DIR Sample.os_write Sample.upload "new/x" =
  (Uncaught "[Errno 2] No such file or directory: '/models/new/x.gguf'",
   [FsWrite "/models/new/x.gguf" "GGUF"]).
Proof. reflexivity. Qed.

(** ** Activating and deleting a model *)

Section Activation.

Variable MODELS_DIR : string.
Variable os_path_exists : string -> bool.
Variable os_listdir : string -> list string.
Variable Llama_new : string -> kwargs -> result Llama.

Lemma join_nonempty (dir name : string) : name <> "" -> os_path.join dir name <> "".
Proof.
  intros Hname. unfold os_path.join.
  destruct (Str.startswith "/" name); [exact Hname |].
  destruct (String.eqb dir "" || PyStr.endswith "/" dir).
  - destruct dir as [| c dir]; [exact Hname | discriminate].
  - destruct dir as [| c dir]; discriminate.
Qed.

(** X14.  The three outcomes of [activate_model].  404: no file at the path, the
    assistant is untouched and the engine is not called.  500: the file
    exists but no model could be loaded; the detail is made of the first
    error of the engine, the model handle held before is kept, and the stored
    path now names the file that failed.  200: a model built from the file,
    with the derived or the minimal parameters, is now the loaded one.  The
    index and the documents are never touched. *)
Theorem activate_model_outcomes (llm_assistant : LLMAssistant) (model_name : string) :
  let path := os_path.join MODELS_DIR model_name in
  let '(answer, after, calls) :=
    activate_model MODELS_DIR os_path_exists Llama_new llm_assistant model_name in
  index after = index llm_assistant /\
  documents after = documents llm_assistant /\
  embedding_model after = embedding_model llm_assistant /\
  match answer with
  | Http_ok message =>
      message = "Model " ++ model_name ++ " activated successfully" /\
      os_path_exists path = true /\ path <> "" /\
      model_path after = Some path /\
      (1 <= length calls <= 2)%nat /\
      exists m, model after = Some m /\
        (Llama_new path (_get_model_params path) = Ok m \/
         Llama_new path minimal_params = Ok m)
  | HTTPException status_code detail =>
      (status_code = 404 /\ os_path_exists path = false /\
       detail = "Model " ++ model_name ++ " not found" /\
       after = llm_assistant /\ calls = []) \/
      (status_code = 500 /\ os_path_exists path = true /\
       model after = model llm_assistant /\ model_path after = Some path /\
       (path = "" \/
        exists e, Llama_new path (_get_model_params path) = Raise e /\
                  raises (Llama_new path minimal_params) /\
                  detail = "Error loading model: " ++ exn_str e))
  end.
Proof.
  intros path. unfold activate_model. fold path.
  destruct (os_path_exists path) eqn:Hex; cbn [negb].
  - unfold set_model_path, _load_model. cbn [model_path set_model_path_field].
    destruct (String.eqb_spec path "") as [H0 | Hne]; cbn [orb negb].
    + cbn. repeat split. right. repeat split. left. exact H0.
    + rewrite Hex. cbn [negb].
      destruct (Llama_new path (_get_model_params path)) as [m | e] eqn:E1.
      * cbn. repeat split; try lia; try assumption. exists m. split; [reflexivity | left; reflexivity].
      * destruct (Llama_new path minimal_params) as [m | e2] eqn:E2.
        -- cbn. repeat split; try lia; try assumption.
           exists m. split; [reflexivity | right; reflexivity].
        -- cbn. repeat split. right. repeat split. right. exists e.
           repeat split.
  - repeat split. left. repeat split.
Qed.

(** Once the file exists the stored path is the path of the file, whatever
    the engine does; and a refusal with status 500 keeps the model handle. *)
Lemma activate_model_stores_path (llm_assistant : LLMAssistant) (model_name : string) :
  os_path_exists (os_path.join MODELS_DIR model_name) = true ->
  let '(answer, after, _) :=
    activate_model MODELS_DIR os_path_exists Llama_new llm_assistant model_name in
  model_path after = Some (os_path.join MODELS_DIR model_name) /\
  (forall detail, answer = HTTPException 500 detail ->
                  model after = model llm_assistant).
Proof.
  intros Hex. unfold activate_model. rewrite Hex. cbn [negb].
  unfold set_model_path, _load_model. cbn [model_path set_model_path_field].
  destruct (String.eqb (os_path.join MODELS_DIR model_name) ""); cbn [orb];
    [split; [reflexivity | intros; reflexivity] |].
  rewrite Hex. cbn [negb].
  destruct (Llama_new _ (_get_model_params _)) as [m | e];
    [split; [reflexivity | intros ? [=]] |].
  destruct (Llama_new _ minimal_params) as [m | e2];
    [split; [reflexivity | intros ? [=]] |].
  split; [reflexivity | intros; reflexivity].
Qed.

(** X15.  After any attempt to activate an existing file, successful or not,
    [list_models] marks as active the entries with that file's name and no
    other; and when the attempt failed with status 500 the model that was
    loaded before is still the loaded one, although it is no longer the one
    shown as active. *)
Theorem activate_then_list (llm_assistant : LLMAssistant) (model_name : string) :
  Str.contains "/" model_name = false ->
  model_name <> "" ->
  os_path_exists (os_path.join MODELS_DIR model_name) = true ->
  let '(answer, after, _) :=
    activate_model MODELS_DIR os_path_exists Llama_new llm_assistant model_name in
  Forall (fun m => ModelInfo.is_active m = String.eqb (ModelInfo.name m) model_name)
    (list_models MODELS_DIR os_path_exists os_listdir after) /\
  (forall detail, answer = HTTPException 500 detail ->
                  model after = model llm_assistant).
Proof.
  intros Hslash Hname Hex.
  pose proof (activate_model_stores_path llm_assistant model_name Hex) as H.
  destruct (activate_model MODELS_DIR os_path_exists Llama_new llm_assistant model_name)
    as [[answer after] calls].
  destruct H as [Hpath Hkeep].
  split; [| exact Hkeep].
  pose proof (list_models_entries MODELS_DIR os_path_exists os_listdir after) as Hall.
  eapply Forall_impl; [exact Hall |]. intros m [_ Hact]. rewrite Hact, Hpath.
  rewrite (basename_of_join MODELS_DIR model_name Hslash).
  destruct (String.eqb_spec (os_path.join MODELS_DIR model_name) "") as [H0 | _];
    [exfalso; eapply join_nonempty; eassumption | reflexivity].
Qed.

(** Deleting the file the stored path names resets the assistant, whatever
    comes of the removal. *)
Lemma delete_model_active (os_remove : string -> os_outcome)
    (llm_assistant : LLMAssistant) (model_name : string) :
  os_path_exists (os_path.join MODELS_DIR model_name) = true ->
  model_path llm_assistant = Some (os_path.join MODELS_DIR model_name) ->
  delete_model MODELS_DIR os_path_exists os_remove llm_assistant model_name =
  (match os_remove (os_path.join MODELS_DIR model_name) with
   | OsDone => Served (Http_ok ("Model " ++ model_name ++ " deleted successfully"))
   | OsRaise error => Uncaught error
   end,
   set_model_path_field (set_model llm_assistant None) None,
   [FsRemove (os_path.join MODELS_DIR model_name)]).
Proof.
  intros Hex Hpath. unfold delete_model. rewrite Hex, Hpath, String.eqb_refl.
  cbn [negb]. destruct (os_remove (os_path.join MODELS_DIR model_name));
    reflexivity.
Qed.

(** X16.  The outcomes of [delete_model].  404: nothing at the path, and nothing
    happens.  Otherwise one removal is asked for, of that path; the request
    is answered with the message when [os.remove] succeeds, and the
    exception leaves the endpoint when it raises (the path is a directory,
    say).  In both cases the assistant is reset (no model, no path) exactly
    when its stored path is the path of the file, and is left as it was in
    every other case: a removal that fails still unloads the model.  The
    index, the documents and the encoder are never touched. *)
Theorem delete_model_outcomes (os_remove : string -> os_outcome)
    (llm_assistant : LLMAssistant) (model_name : string) :
  let path := os_path.join MODELS_DIR model_name in
  let '(outcome, after, effects) :=
    delete_model MODELS_DIR os_path_exists os_remove llm_assistant model_name in
  index after = index llm_assistant /\
  documents after = documents llm_assistant /\
  embedding_model after = embedding_model llm_assistant /\
  (os_path_exists path = false ->
     outcome = Served (HTTPException 404 ("Model " ++ model_name ++ " not found")) /\
     after = llm_assistant /\ effects = []) /\
  (os_path_exists path = true ->
     effects = [FsRemove path] /\
     (os_remove path = OsDone ->
        outcome =
          Served (Http_ok ("Model " ++ model_name ++ " deleted successfully"))) /\
     (forall error, os_remove path = OsRaise error -> outcome = Uncaught error) /\
     (model_path llm_assistant = Some path ->
        model after = None /\ model_path after = None) /\
     (model_path llm_assistant <> Some path -> after = llm_assistant)).
Proof.
  intros path. unfold delete_model. fold path.
  destruct (os_path_exists path); cbn [negb].
  - assert (forall (after : LLMAssistant),
              (os_remove path = OsDone ->
               match os_remove path with
               | OsRaise error => Uncaught error
               | OsDone =>
                   Served (Http_ok ("Model " ++ model_name ++ " deleted successfully"))
               end =
               Served (Http_ok ("Model " ++ model_name ++ " deleted successfully"))) /\
              (forall error, os_remove path = OsRaise error ->
               match os_remove path with
               | OsRaise error => Uncaught error
               | OsDone =>
                   Served (Http_ok ("Model " ++ model_name ++ " deleted successfully"))
               end = @Uncaught string error)) as Hout.
    { intros _. split; [intros -> | intros error ->]; reflexivity. }
    destruct (model_path llm_assistant) as [active |] eqn:Hactive.
    + destruct (String.eqb_spec active path) as [-> | Hne].
      * split; [reflexivity |]. split; [reflexivity |]. split; [reflexivity |].
        split; [discriminate |]. intros _. split; [reflexivity |].
        split; [apply (Hout llm_assistant) |].
        split; [apply (Hout llm_assistant) |].
        split; [intros _; split; reflexivity | congruence].
      * split; [reflexivity |]. split; [reflexivity |]. split; [reflexivity |].
        split; [discriminate |]. intros _. split; [reflexivity |].
        split; [apply (Hout llm_assistant) |].
        split; [apply (Hout llm_assistant) |].
        split; [congruence | reflexivity].
    + split; [reflexivity |]. split; [reflexivity |]. split; [reflexivity |].
      split; [discriminate |]. intros _. split; [reflexivity |].
      split; [apply (Hout llm_assistant) |].
      split; [apply (Hout llm_assistant) |].
      split; [discriminate | reflexivity].
  - repeat split; discriminate.
Qed.

End Activation.

Lemma activate_then_list_witness :
  let '(answer, after, _) :=
    activate_model Sample.MODELS_DIR Sample.os_path_exists Sample.llama_only
      (set_model
         (set_model_path_field Fixture.fresh (Some "/models/llama-2.gguf"))
         (Some (Fixture.constant_llama "42" "/models/llama-2.gguf" minimal_params)))
      "phi.gguf" in
  Forall (fun m => ModelInfo.is_active m = String.eqb (ModelInfo.name m) "phi.gguf")
    (list_models Sample.MODELS_DIR Sample.os_path_exists Sample.os_listdir after) /\
  (forall detail, answer = HTTPException 500 detail ->
     model after =
     Some (Fixture.constant_llama "42" "/models/llama-2.gguf" minimal_params)).
Proof.
  exact (activate_then_list Sample.MODELS_DIR Sample.os_path_exists
           Sample.os_listdir Sample.llama_only
           (set_model
              (set_model_path_field Fixture.fresh (Some "/models/llama-2.gguf"))
              (Some (Fixture.constant_llama "42" "/models/llama-2.gguf" minimal_params)))
           "phi.gguf" eq_refl ltac:(discriminate) eq_refl).
Defined.

Example failed_activation_sample :
  let loaded := Fixture.constant_llama "42" "/models/llama-2.gguf" minimal_params in
  let before :=
    set_model (set_model_path_field Fixture.fresh (Some "/models/llama-2.gguf"))
      (Some loaded) in
  let '(answer, after, _) :=
    activate_model Sample.MODELS_DIR Sample.os_path_exists Sample.llama_only
      before "phi.gguf" in
  answer = HTTPException 500 "Error loading model: unknown model architecture" /\
  model after = Some loaded /\
  map ModelInfo.is_active
    (list_models Sample.MODELS_DIR Sample.os_path_exists Sample.os_listdir after)
  = [false; true].
Proof. repeat split. Qed.

Lemma delete_model_outcomes_witness :
  let before := set_model_path_field Fixture.fresh (Some "/models/old.gguf") in
  let '(outcome, after, effects) :=
    delete_model Sample.MODELS_DIR Sample.os_path_exists Sample.os_remove
      before "old.gguf" in
  outcome = Uncaught "[Errno 21] Is a directory: '/models/old.gguf'" /\
  effects = [FsRemove "/models/old.gguf"] /\
  model_path after = None.
Proof.
  pose proof (delete_model_outcomes Sample.MODELS_DIR Sample.os_path_exists
                Sample.os_remove
                (set_model_path_field Fixture.fresh (Some "/models/old.gguf"))
                "old.gguf") as H.
  cbv zeta in H |- *.
  destruct (delete_model Sample.MODELS_DIR Sample.os_path_exists Sample.os_remove
              (set_model_path_field Fixture.fresh (Some "/models/old.gguf"))
              "old.gguf") as [[outcome after] effects].
  destruct H as (_ & _ & _ & _ & H).
  destruct (H eq_refl) as (He & _ & Hraise & Hreset & _).
  destruct (Hreset eq_refl) as [_ Hp].
  split; [exact (Hraise _ eq_refl) | split; [exact He | exact Hp]].
Defined.

Example delete_model_sample :
  let before := set_model_path_field Fixture.fresh (Some "/models/phi.gguf") in
  delete_model Sample.MODELS_DIR Sample.os_path_exists Sample.os_remove
    before "phi.gguf" =
  (Served (Http_ok "Model phi.gguf deleted successfully"),
   Fixture.fresh, [FsRemove "/models/phi.gguf"]).
Proof. reflexivity. Qed.

(** X17.  Whatever came of an attempt to activate an existing file, a request to
    delete that file afterwards leaves the assistant with no model and no
    path, whether [os.remove] then succeeds or raises: in particular, after a
    failed activation this unloads the model that was loaded before the
    attempt, although its own file is not the one deleted.  One removal is
    asked for, and the request is answered with the message exactly when it
    succeeds.  A later question over a store that holds notes is answered on
    the no-model branch of the endpoint, without any call to an engine. *)
Theorem activate_then_delete
    (MODELS_DIR : string) (os_path_exists : string -> bool)
    (Llama_new : string -> kwargs -> result Llama)
    (os_remove : string -> os_outcome)
    (llm_assistant : LLMAssistant) (model_name : string) :
  os_path_exists (os_path.join MODELS_DIR model_name) = true ->
  let path := os_path.join MODELS_DIR model_name in
  let activated :=
    snd (fst (activate_model MODELS_DIR os_path_exists Llama_new
                llm_assistant model_name)) in
  let '(outcome, after, effects) :=
    delete_model MODELS_DIR os_path_exists os_remove activated model_name in
  outcome =
    match os_remove path with
    | OsDone => Served (Http_ok ("Model " ++ model_name ++ " deleted successfully"))
    | OsRaise error => Uncaught error
    end /\
  effects = [FsRemove path] /\
  model after = None /\ model_path after = None /\
  (forall notes q, notes <> [] ->
     exists found,
       (length found <= 5)%nat /\
       fst (fst (ask_llm after notes q)) =
         Ok {| answer := no_model_loaded; sources := found |} /\
       snd (ask_llm after notes q) = []).
Proof.
  intros Hex.
  pose proof (activate_model_stores_path MODELS_DIR os_path_exists Llama_new
                llm_assistant model_name Hex) as Hact.
  cbv zeta.
  destruct (activate_model MODELS_DIR os_path_exists Llama_new llm_assistant
              model_name) as [[answer1 after1] calls1].
  cbn [fst snd]. destruct Hact as [Hpath _].
  rewrite (delete_model_active MODELS_DIR os_path_exists os_remove after1
             model_name Hex Hpath).
  split; [reflexivity |]. split; [reflexivity |]. split; [reflexivity |].
  split; [reflexivity |].
  intros notes q Hne.
  destruct (ask_llm_without_model
              (set_model_path_field (set_model after1 None) None) notes q Hne eq_refl)
    as (found & _ & Hlen & Hask).
  exists found. split; [exact Hlen |]. rewrite Hask. split; reflexivity.
Qed.

Lemma activate_then_delete_witness :
  let loaded := Fixture.constant_llama "42" "/models/llama-2.gguf" minimal_params in
  let before :=
    set_model (set_model_path_field Fixture.fresh (Some "/models/llama-2.gguf"))
      (Some loaded) in
  let activated :=
    snd (fst (activate_model Sample.MODELS_DIR Sample.os_path_exists
                Sample.llama_only before "old.gguf")) in
  model activated = Some loaded /\
  fst (fst (delete_model Sample.MODELS_DIR Sample.os_path_exists Sample.os_remove
              activated "old.gguf")) =
    Uncaught "[Errno 21] Is a directory: '/models/old.gguf'" /\
  model (snd (fst (delete_model Sample.MODELS_DIR Sample.os_path_exists
                     Sample.os_remove activated "old.gguf"))) = None.
Proof.
  intros loaded before activated. split; [reflexivity |].
  pose proof (activate_then_delete Sample.MODELS_DIR Sample.os_path_exists
                Sample.llama_only Sample.os_remove before "old.gguf" eq_refl) as H.
  cbv zeta in H. fold activated in H.
  destruct (delete_model Sample.MODELS_DIR Sample.os_path_exists Sample.os_remove
              activated "old.gguf") as [[outcome after] effects].
  destruct H as (Ho & _ & Hm & _). split; [exact Ho | exact Hm].
Defined.

(** ** The assistant: searching, building, asking *)

Lemma py_getitem_member {A : Type} (l : list A) (i : Z) (a : A) :
  py_getitem l i = Ok a -> a ∈ l.
Proof.
  unfold py_getitem.
  destruct ((0 <=? _) && (_ <? _)); [| discriminate].
  destruct (l !! _) as [x |] eqn:E; [| discriminate].
  intros [= <-]. eapply list_elem_of_lookup_2, E.
Qed.

Lemma collect_members (docs : list Document) (indices : list Z)
    (results found : list Document) :
  collect docs indices results = Ok found ->
  Forall (fun doc => doc ∈ docs) results ->
  Forall (fun doc => doc ∈ docs) found.
Proof.
  revert results. induction indices as [| idx rest IH]; intros results; cbn [collect].
  - intros [= <-] H. exact H.
  - destruct (idx <? Z.of_nat (length docs)); [| apply IH].
    destruct (py_getitem docs idx) as [doc | e] eqn:E; [| discriminate].
    cbn. intros Hrest Hres. apply (IH _ Hrest).
    apply Forall_app. split; [exact Hres |].
    constructor; [eapply py_getitem_member, E | constructor].
Qed.

Lemma search_documents_members (self : LLMAssistant) (question : string)
    (top_k : Z) (found : list Document) :
  search_documents self question top_k = Ok found ->
  Forall (fun doc => doc ∈ documents self) found.
Proof.
  unfold search_documents.
  destruct (index self) as [ix |]; [| intros [= <-]; constructor].
  destruct (documents self) as [| doc docs]; [intros [= <-]; constructor |].
  destruct (faiss.search ix _ top_k) as [[distances indices] | e]; [| discriminate].
  cbn. destruct (py_getitem indices 0) as [row | e]; [| discriminate].
  cbn. intros H. eapply collect_members; [exact H | constructor].
Qed.

(** X2.  In every state of the assistant, a search with a positive [top_k] does
    not raise, returns at most [top_k] entries, and returns nothing but
    documents of the current document list. *)
Theorem search_documents_safe (self : LLMAssistant) (question : string) (top_k : Z) :
  0 < top_k ->
  exists found,
    search_documents self question top_k = Ok found /\
    Z.of_nat (length found) <= top_k /\
    Forall (fun doc => doc ∈ documents self) found.
Proof.
  intros Hk.
  destruct (search_documents_total self question top_k Hk) as (found & Hfound & Hlen).
  exists found. split; [exact Hfound |]. split; [exact Hlen |].
  eapply search_documents_members, Hfound.
Qed.

Lemma search_documents_safe_witness :
  exists found,
    search_documents
      (snd (index_documents Fixture.fresh [Fixture.doc_a; Fixture.doc_b])) "b" 1
    = Ok found /\
    Z.of_nat (length found) <= 1 /\
    Forall (fun doc => doc ∈ [Fixture.doc_a; Fixture.doc_b]) found.
Proof.
  apply (search_documents_safe
           (snd (index_documents Fixture.fresh [Fixture.doc_a; Fixture.doc_b]))
           "b" 1).
  reflexivity.
Defined.

(** ** The order of the results, by the distances that the index computes *)

(** With the exact distance for [dist], the search of [Computed] is the
    search of the assistant. *)
Lemma computed_exact (self : LLMAssistant) (query : string) (top_k : Z) :
  Computed.search_documents faiss.l2sqr self query top_k =
  search_documents self query top_k.
Proof. reflexivity. Qed.

Section ComputedOrder.

Variable dist : vector -> vector -> Q.

Lemma computed_candidates_stored (q : vector) (xs : list vector) (off : nat) :
  StronglySorted stored_before (imap (fun i x => (dist q x, (off + i)%nat)) xs).
Proof.
  revert off. induction xs as [| x xs IH]; intros off; cbn [imap].
  - constructor.
  - rewrite (imap_ext _ (fun i y => (dist q y, (S off + i)%nat)))
      by (intros i y _; cbn; f_equal; lia).
    constructor; [apply IH |].
    apply Forall_forall. intros c Hc.
    apply list_elem_of_lookup in Hc as [i Hi]. rewrite list_lookup_imap in Hi.
    destruct (xs !! i) as [y |]; [| discriminate]. injection Hi as <-.
    unfold stored_before. cbn. lia.
Qed.

Lemma computed_ranking_sorted (ix : faiss.IndexFlatL2) (q : vector) :
  StronglySorted nearer (faiss.sort (Computed.candidates dist ix q)).
Proof. apply sort_sorted, (computed_candidates_stored q (faiss.xb ix) 0). Qed.

Lemma computed_candidates_lookup (ix : faiss.IndexFlatL2) (q : vector)
    (c : Q * nat) :
  c ∈ Computed.candidates dist ix q ->
  exists x, faiss.xb ix !! snd c = Some x /\ fst c = dist q x.
Proof.
  unfold Computed.candidates. rewrite list_elem_of_lookup.
  intros [i Hi]. rewrite list_lookup_imap in Hi.
  destruct (faiss.xb ix !! i) as [x |] eqn:Hx; [| discriminate].
  injection Hi as <-. exists x. split; [exact Hx | reflexivity].
Qed.

Lemma computed_candidates_labels (ix : faiss.IndexFlatL2) (q : vector) :
  map snd (Computed.candidates dist ix q) = seq 0 (faiss.ntotal ix).
Proof.
  unfold Computed.candidates, faiss.ntotal.
  change (map snd) with (fmap (M := list) (@snd Q nat)).
  rewrite fmap_imap.
  rewrite (imap_ext _ (fun j _ => id j)) by reflexivity.
  rewrite imap_seq_0, list_fmap_id. reflexivity.
Qed.

(** The search within the corpus: the documents of the first [top_k]
    entries of the ranking. *)
Lemma computed_search_within (self : LLMAssistant) (docs : list Document)
    (question : string) (top_k : Z) (ix : faiss.IndexFlatL2) :
  0 < top_k <= Z.of_nat (length docs) ->
  index self = Some ix -> documents self = docs ->
  faiss.ntotal ix = length docs ->
  let ranking :=
    faiss.sort (Computed.candidates dist ix
                  (encode_one (embedding_model self) question)) in
  exists found,
    Computed.search_documents dist self question top_k = Ok found /\
    Forall2 (fun c doc => docs !! snd c = Some doc)
      (take (Z.to_nat top_k) ranking) found.
Proof.
  intros [Hk Hn] Hix Hdocs Hntotal ranking.
  assert (Hlen : length ranking = length docs).
  { unfold ranking, Computed.candidates.
    rewrite sort_length, length_imap. exact Hntotal. }
  destruct (collect_stored docs (take (Z.to_nat top_k) ranking) [])
    as (found & Hfound & Hall2).
  { apply Forall_take. apply Forall_forall. intros c Hc.
    assert (snd c ∈ map snd ranking) as Hin.
    { change (map snd) with (fmap (M := list) (@snd Q nat)).
      apply list_elem_of_fmap_2, Hc. }
    unfold ranking in Hin. rewrite sort_perm, computed_candidates_labels in Hin.
    rewrite Hntotal in Hin. apply elem_of_seq in Hin. lia. }
  exists found. split; [| exact Hall2].
  unfold Computed.search_documents. rewrite Hix, Hdocs.
  destruct docs as [| doc0 docs0] eqn:Edocs; [cbn in Hn; lia |].
  rewrite <- Edocs in *. cbn [encode map].
  unfold Computed.search.
  destruct (Z.ltb_spec 0 top_k) as [_ | Hle]; [| lia].
  cbn. rewrite py_getitem_0. cbn. unfold Computed.knn. cbn [snd].
  fold ranking. rewrite length_take, Hlen.
  replace (Z.to_nat top_k - Z.to_nat top_k `min` length docs)%nat
    with 0%nat by lia.
  cbn [replicate]. rewrite app_nil_r. exact Hfound.
Qed.

End ComputedOrder.

(** X1.  Whatever the rounding of the distances that the index computes, for
    [0 < top_k <= n] on a freshly built index over [n] documents the search
    returns exactly [top_k] documents: those of the first [top_k] entries of
    a ranking of all [n] positions, each entry carrying the computed
    distance of the document at its position, in which every entry is
    nearer to the query (or as near and stored earlier) than every later
    one.  So the computed distances of the result never decrease, ties are
    in insertion order, and no document left out is nearer than one
    returned. *)
Theorem search_sorted_within_corpus
    (dist : vector -> vector -> Q)
    (self : LLMAssistant) (docs : list Document) (question : string) (top_k : Z) :
  0 < top_k <= Z.of_nat (length docs) ->
  let distance := Computed.distance_to dist (embedding_model self) question in
  exists (best rest : list (Q * nat)) (found : list Document),
    Computed.search_documents dist (snd (index_documents self docs))
      question top_k = Ok found /\
    length found = Z.to_nat top_k /\
    Forall2 (fun c doc => docs !! snd c = Some doc) best found /\
    Forall (fun c => exists doc,
              docs !! snd c = Some doc /\ fst c = distance doc) (best ++ rest) /\
    StronglySorted nearer (best ++ rest) /\
    map snd (best ++ rest) ≡ₚ seq 0 (length docs) /\
    StronglySorted Qle (map distance found) /\
    (forall (i : nat) (left_out : Document),
       docs !! i = Some left_out -> i ∉ map snd best ->
       Forall (fun doc => (distance doc <= distance left_out)%Q) found).
Proof.
  intros [Hk Hn] distance.
  assert (Hne : docs <> []) by (intros ->; cbn in Hn; lia).
  destruct (built_fields self docs Hne) as (Hd & _ & _ & He & ix & Hix & Hxb & Hnt).
  destruct (computed_search_within dist (snd (index_documents self docs)) docs
              question top_k ix (conj Hk Hn) Hix Hd Hnt) as (found & Hsearch & Hall).
  cbv zeta in Hall. rewrite He in Hall.
  set (rk := faiss.sort (Computed.candidates dist ix
                (encode_one (embedding_model self) question))) in *.
  assert (Hsorted : StronglySorted nearer rk) by apply computed_ranking_sorted.
  assert (Hperm : map snd rk ≡ₚ seq 0 (length docs)).
  { unfold rk. rewrite sort_perm, computed_candidates_labels, Hnt. reflexivity. }
  assert (Htied : Forall (fun c => exists doc,
                     docs !! snd c = Some doc /\ fst c = distance doc) rk).
  { unfold rk. rewrite sort_perm. apply Forall_forall. intros c Hc.
    destruct (computed_candidates_lookup dist _ _ _ Hc) as (x & Hx & Hfst).
    rewrite Hxb in Hx. unfold encode in Hx. rewrite !list_lookup_fmap in Hx.
    destruct (docs !! snd c) as [doc |]; [| discriminate].
    cbn in Hx. injection Hx as <-. exists doc. split; [reflexivity |].
    exact Hfst. }
  assert (Hdist : Forall2 (fun c doc => fst c = distance doc)
                    (take (Z.to_nat top_k) rk) found).
  { apply Forall2_same_length_lookup. split; [eapply Forall2_length, Hall |].
    intros i c doc Hc Hdoc.
    pose proof (Forall2_lookup_lr _ _ _ _ _ _ Hall Hc Hdoc) as Hcd.
    assert (c ∈ rk) as Hin.
    { apply (subseteq_take (Z.to_nat top_k)). eapply list_elem_of_lookup_2, Hc. }
    rewrite Forall_forall in Htied.
    destruct (Htied c Hin) as (doc' & Hdoc' & Hfst).
    cbn in Hcd. rewrite Hdoc' in Hcd. injection Hcd as ->. exact Hfst. }
  assert (Hlen : length rk = length docs).
  { rewrite <- (length_map snd rk), Hperm, length_seq. reflexivity. }
  exists (take (Z.to_nat top_k) rk), (drop (Z.to_nat top_k) rk), found.
  rewrite take_drop.
  split; [exact Hsearch |]. split.
  { rewrite <- (Forall2_length _ _ _ Hall), length_take. lia. }
  split; [exact Hall |]. split; [exact Htied |]. split; [exact Hsorted |].
  split; [exact Hperm |]. split.
  { apply (distances_sorted _ (take (Z.to_nat top_k) rk)); [exact Hdist |].
    rewrite <- (take_drop (Z.to_nat top_k) rk) in Hsorted.
    apply StronglySorted_app_1_l in Hsorted. exact Hsorted. }
  intros i left_out Hi Hout.
  assert (i ∈ map snd rk) as Hin.
  { rewrite Hperm. apply elem_of_seq. apply lookup_lt_Some in Hi. lia. }
  rewrite <- (take_drop (Z.to_nat top_k) rk), map_app in Hin.
  apply elem_of_app in Hin as [Hin | Hin]; [contradiction |].
  change (map snd) with (fmap (M := list) (@snd Q nat)) in Hin.
  apply list_elem_of_fmap in Hin as (c & -> & Hc).
  assert (fst c = distance left_out) as Hfst.
  { rewrite Forall_forall in Htied.
    destruct (Htied c) as (doc' & Hdoc' & Hfst).
    { apply (subseteq_drop (Z.to_nat top_k)), Hc. }
    rewrite Hi in Hdoc'. injection Hdoc' as <-. exact Hfst. }
  apply Forall_forall. intros doc Hdoc.
  apply list_elem_of_lookup in Hdoc as [j Hj].
  destruct (Forall2_lookup_r _ _ _ _ _ Hdist Hj) as (b & Hb & Hbd).
  rewrite <- Hbd, <- Hfst. apply nearer_le.
  rewrite <- (take_drop (Z.to_nat top_k) rk) in Hsorted.
  apply (StronglySorted_app_1_elem_of _ _ _ _ _ Hsorted);
    [eapply list_elem_of_lookup_2, Hb | exact Hc].
Qed.

(** The ranking at work on two notes and a search for one of them, with a
    computed distance that is not the exact one: the second note is
    returned, the first one is left out and is not nearer. *)
Lemma search_sorted_within_corpus_witness :
  let distance :=
    Computed.distance_to Rounded.dist
      (embedding_model Rounded.fresh) "b" in
  exists (best rest : list (Q * nat)) (found : list Document),
    Computed.search_documents Rounded.dist
      (snd (index_documents Rounded.fresh
              [Fixture.doc_a; Fixture.doc_b])) "b" 1
    = Ok found /\
    length found = Z.to_nat 1 /\
    Forall2 (fun c doc => [Fixture.doc_a; Fixture.doc_b] !! snd c = Some doc)
      best found /\
    Forall (fun c => exists doc,
              [Fixture.doc_a; Fixture.doc_b] !! snd c = Some doc /\
              fst c = distance doc) (best ++ rest) /\
    StronglySorted nearer (best ++ rest) /\
    map snd (best ++ rest) ≡ₚ seq 0 2 /\
    StronglySorted Qle (map distance found) /\
    (forall (i : nat) (left_out : Document),
       [Fixture.doc_a; Fixture.doc_b] !! i = Some left_out ->
       i ∉ map snd best ->
       Forall (fun doc => (distance doc <= distance left_out)%Q) found).
Proof.
  apply (search_sorted_within_corpus Rounded.dist
           Rounded.fresh
           [Fixture.doc_a; Fixture.doc_b] "b" 1).
  cbn. lia.
Defined.

Example search_by_computed_distance :
  Computed.search_documents Rounded.dist
    (snd (index_documents Rounded.fresh
            [Fixture.doc_a; Fixture.doc_b])) "b" 1
  = Ok [Fixture.doc_b].
Proof. reflexivity. Qed.

Lemma index_documents_rebuilds_witness :
  let '(count, self') :=
    index_documents Fixture.fresh [Fixture.doc_a; Fixture.doc_b] in
  count = Ok 2%nat /\
  documents self' = [Fixture.doc_a; Fixture.doc_b] /\
  (exists ix, index self' = Some ix /\
     faiss.xb ix = map (fun doc => encode_one (embedding_model Fixture.fresh)
                                     (document_text doc))
                     [Fixture.doc_a; Fixture.doc_b] /\
     faiss.ntotal ix = length (documents self')) /\
  model self' = model Fixture.fresh /\ model_path self' = model_path Fixture.fresh.
Proof.
  apply (index_documents_rebuilds Fixture.fresh [Fixture.doc_a; Fixture.doc_b]).
  discriminate.
Defined.

(** X4.  On a store that holds notes the endpoint rebuilds the index over exactly
    these notes and answers without raising.  With no model loaded the answer
    is the sentence of the endpoint with the result of a search with
    [top_k = 5], and no engine is called.  With a model loaded the answer is
    what [generate_response] returns for the prompt built from the result of
    a search with [top_k = 3], these documents are the sources, and the
    model is called exactly once. *)
Theorem ask_llm_on_store (llm_assistant : LLMAssistant) (notes : list Note)
    (q : LLMQuery) :
  notes <> [] ->
  let indexed := snd (index_documents llm_assistant (map document_of_note notes)) in
  documents indexed = map document_of_note notes /\
  match model llm_assistant with
  | None =>
      exists found,
        search_documents indexed (query q) 5 = Ok found /\
        (length found <= 5)%nat /\
        ask_llm llm_assistant notes q =
        (Ok {| answer := no_model_loaded; sources := found |}, indexed, [])
  | Some m =>
      exists found text,
        search_documents indexed (query q) 3 = Ok found /\
        (length found <= 3)%nat /\
        let req := {| req_prompt := build_prompt (context_from 0 found) (query q);
                      req_max_tokens := max_tokens q;
                      req_temperature := 7 # 10; req_repeat_penalty := 11 # 10;
                      req_echo := false |} in
        generate_response indexed (req_prompt req) (max_tokens q)
          = (text, [EvComplete req]) /\
        ask_llm llm_assistant notes q =
        (Ok {| answer := text; sources := found |}, indexed, [EvComplete req])
  end.
Proof.
  intros Hne indexed. split.
  - unfold indexed.
    destruct (index_documents_nonempty llm_assistant (map document_of_note notes))
      as [dim ->]; [| reflexivity].
    destruct notes; [congruence | discriminate].
  - destruct (model llm_assistant) as [m |] eqn:Hm.
    + destruct (ask_llm_with_model llm_assistant notes q Hne m Hm)
        as (found & text & H1 & H2 & H3 & H4).
      exists found, text. cbv zeta. cbn [req_prompt]. auto.
    + destruct (ask_llm_without_model llm_assistant notes q Hne Hm)
        as (found & H1 & H2 & H3).
      exists found. auto.
Qed.

Lemma ask_llm_on_store_witness :
  fst (fst (ask_llm
              (set_model Fixture.fresh
                 (Some (Fixture.failing_llama "/models/phi.gguf" minimal_params)))
              [Fixture.note_a; Fixture.note_b]
              {| query := "b"; max_tokens := None |}))
  = Ok {| answer := "Error generating response: llama_decode returned -1";
          sources := [Fixture.doc_b; Fixture.doc_a; Fixture.doc_b] |}.
Proof.
  destruct (ask_llm_on_store
              (set_model Fixture.fresh
                 (Some (Fixture.failing_llama "/models/phi.gguf" minimal_params)))
              [Fixture.note_a; Fixture.note_b]
              {| query := "b"; max_tokens := None |})
    as [_ (found & text & Hfound & _ & Hgen & Hask)]; [discriminate |].
  rewrite Hask. cbn [fst].
  injection Hfound as <-. injection Hgen as <-. reflexivity.
Defined.

(** X5.  What [ask_llm] answers does not depend on the index, the documents or the
    model path the assistant held before the call: two assistants with the
    same model and the same encoder give the same answer (or raise the same
    exception) and make the same calls, and both hold the documents of the
    store afterwards. *)
Theorem ask_llm_ignores_previous_index
    (a1 a2 : LLMAssistant) (notes : list Note) (q : LLMQuery) :
  model a1 = model a2 ->
  embedding_model a1 = embedding_model a2 ->
  fst (fst (ask_llm a1 notes q)) = fst (fst (ask_llm a2 notes q)) /\
  snd (ask_llm a1 notes q) = snd (ask_llm a2 notes q) /\
  documents (snd (fst (ask_llm a1 notes q))) = map document_of_note notes /\
  documents (snd (fst (ask_llm a2 notes q))) = map document_of_note notes.
Proof.
  destruct a1 as [p1 m1 e1 i1 d1], a2 as [p2 m2 e2 i2 d2]. cbn [model embedding_model].
  intros <- <-.
  destruct notes as [| note notes]; [repeat split |].
  assert (Hsearch : forall p i d top_k,
    search_documents
      (snd (index_documents
              {| model_path := p; model := m1; embedding_model := e1;
                 index := i; documents := d |}
              (map document_of_note (note :: notes)))) (query q) top_k =
    search_documents
      (snd (index_documents
              {| model_path := None; model := m1; embedding_model := e1;
                 index := None; documents := [] |}
              (map document_of_note (note :: notes)))) (query q) top_k)
    by reflexivity.
  unfold ask_llm.
  change (index_documents ?a (map document_of_note (note :: notes)))
    with (Ok (length (map document_of_note (note :: notes))) : result nat,
          snd (index_documents a (map document_of_note (note :: notes)))).
  cbv iota beta.
  change (model (snd (index_documents ?a (map document_of_note (note :: notes)))))
    with (model a). cbn [model].
  destruct m1 as [m |].
  - unfold answer_with_context. rewrite !Hsearch.
    destruct (search_documents _ (query q) 3) as [found | e]; [| repeat split].
    change (generate_response (snd (index_documents ?a _)) ?pr ?mt)
      with (generate_response
              {| model_path := None; model := Some m; embedding_model := e1;
                 index := None; documents := [] |} pr mt).
    destruct (generate_response _ _ _) as [text evs]. repeat split.
  - rewrite !Hsearch.
    destruct (search_documents _ (query q) 5) as [found | e]; repeat split.
Qed.

Lemma ask_llm_ignores_previous_index_witness :
  fst (fst (ask_llm Fixture.fresh [Fixture.note_a]
              {| query := "b"; max_tokens := None |}))
  = fst (fst (ask_llm
                (snd (index_documents
                        (set_model_path_field Fixture.fresh (Some "/tmp/gone.gguf"))
                        [Fixture.doc_a; Fixture.doc_b]))
                [Fixture.note_a] {| query := "b"; max_tokens := None |})).
Proof.
  apply (ask_llm_ignores_previous_index Fixture.fresh
           (snd (index_documents
                   (set_model_path_field Fixture.fresh (Some "/tmp/gone.gguf"))
                   [Fixture.doc_a; Fixture.doc_b]))
           [Fixture.note_a] {| query := "b"; max_tokens := None |});
    reflexivity.
Defined.

(** ** Loading and constructing *)

(** X6.  The pair returned by [_load_model] and the state agree: the load never
    touches the stored path, the index, the documents or the encoder, and
    calls the engine at most twice; it reports success exactly when the
    message is empty, and then a model returned by the engine for the stored
    path is the loaded one; when it reports failure the message is not empty
    and the assistant is exactly as before. *)
Theorem load_model_outcome_consistent
    (os_path_exists : string -> bool)
    (Llama_new : string -> kwargs -> result Llama) (self : LLMAssistant) :
  let '((success, error_msg), self', calls) :=
    _load_model os_path_exists Llama_new self in
  model_path self' = model_path self /\
  index self' = index self /\
  documents self' = documents self /\
  embedding_model self' = embedding_model self /\
  (length calls <= 2)%nat /\
  (success = true <-> error_msg = "") /\
  (success = false -> self' = self) /\
  (success = true ->
   exists path params m,
     model_path self = Some path /\ os_path_exists path = true /\
     Llama_new path params = Ok m /\ model self' = Some m /\
     last calls = Some (EvLoad path params)).
Proof.
  unfold _load_model. destruct (model_path self) as [path |] eqn:Hpath.
  - destruct (String.eqb path ""); cbn [orb].
    { repeat split; cbn; try lia; try assumption; try (intros; cbn in *; discriminate). }
    destruct (os_path_exists path) eqn:Hex; cbn [negb].
    + destruct (Llama_new path (_get_model_params path)) as [m | e] eqn:E1.
      * repeat split; cbn; try lia; try assumption; try (intros; cbn in *; discriminate).
        intros _. exists path, (_get_model_params path), m. repeat split; assumption.
      * destruct (Llama_new path minimal_params) as [m | e2] eqn:E2.
        -- repeat split; cbn; try lia; try assumption; try (intros; cbn in *; discriminate).
           intros _. exists path, minimal_params, m. repeat split; assumption.
        -- repeat split; cbn; try lia; try assumption; try (intros; cbn in *; discriminate).
    + repeat split; cbn; try lia; try assumption; try (intros; cbn in *; discriminate).
  - repeat split; cbn; try lia; try assumption; try (intros; cbn in *; discriminate).
Qed.

Lemma load_model_outcome_consistent_witness :
  let self := set_model_path_field Fixture.fresh (Some "/models/gemma.gguf") in
  snd (fst (_load_model Fixture.models_dir_only Fixture.broken_engine self)) = self.
Proof.
  intros self.
  pose proof (load_model_outcome_consistent Fixture.models_dir_only
                Fixture.broken_engine self) as H.
  destruct (_load_model Fixture.models_dir_only Fixture.broken_engine self)
    as [[[success error_msg] self'] calls] eqn:E.
  destruct H as (_ & _ & _ & _ & _ & _ & Hfail & _).
  cbn [fst snd]. apply Hfail.
  injection E as <- _ _ _. reflexivity.
Defined.



(** ** The stories *)

Section StoriesProperties.

Variable fetch : string -> Stories.fetched.
Variable dateutil_parse : string -> option Stories.datetime.

Let parse_date := Stories.parse_date dateutil_parse.
Let not_older := Stories.not_older dateutil_parse.

Lemma all_items_skip_failed (feeds : list Stories.Feed) :
  Stories.all_items fetch feeds =
  Stories.all_items fetch (List.filter (Stories.feed_answers fetch) feeds).
Proof.
  induction feeds as [| feed rest IH]; [reflexivity |].
  cbn [Stories.all_items List.filter]. unfold Stories.feed_answers at 1.
  destruct (fetch (Stories.url feed)) as [entries |] eqn:E.
  - cbn [Stories.all_items]. rewrite E, IH. reflexivity.
  - exact IH.
Qed.

(** X18.  A feed that cannot be fetched or parsed neither fails the request nor
    leaves a trace in the answer: the endpoint answers as if the store held
    the other feeds only. *)
Theorem get_all_stories_skips_failed_feeds (feeds : list Stories.Feed) :
  Stories.get_all_stories fetch dateutil_parse feeds =
  Stories.get_all_stories fetch dateutil_parse (List.filter (Stories.feed_answers fetch) feeds).
Proof.
  unfold Stories.get_all_stories. rewrite <- all_items_skip_failed. reflexivity.
Qed.

Lemma comparable_trans (k a b : option Stories.datetime) :
  Stories.comparable k a = true -> Stories.comparable k b = true ->
  Stories.comparable a b = true.
Proof.
  destruct k as [k |], a as [a |], b as [b |]; cbn; try discriminate; auto.
  destruct (Stories.aware k), (Stories.aware a), (Stories.aware b);
    cbn; congruence.
Qed.

Lemma not_older_trans (k : option Stories.datetime) (x y z : Document) :
  Stories.comparable k (parse_date x) = true ->
  Stories.comparable k (parse_date y) = true ->
  Stories.comparable k (parse_date z) = true ->
  not_older x y = true -> not_older y z = true -> not_older x z = true.
Proof.
  unfold not_older, Stories.not_older, parse_date.
  destruct k as [k |], (Stories.parse_date dateutil_parse x) as [a |],
    (Stories.parse_date dateutil_parse y) as [b |],
    (Stories.parse_date dateutil_parse z) as [c |]; cbn; try discriminate; auto.
  intros _ _ _ H1 H2. apply Z.leb_le in H1, H2. apply Z.leb_le. lia.
Qed.

Lemma not_older_total (x y : Document) :
  not_older x y = false -> not_older y x = true.
Proof.
  unfold not_older, Stories.not_older.
  destruct (Stories.parse_date dateutil_parse x) as [a |],
    (Stories.parse_date dateutil_parse y) as [b |]; try discriminate.
  intros H. apply Z.leb_gt in H. apply Z.leb_le. lia.
Qed.

Lemma insert_desc_perm (x : Document) (l : list Document) :
  Stories.insert_desc dateutil_parse x l ≡ₚ x :: l.
Proof.
  induction l as [| y l IH]; cbn [Stories.insert_desc]; [reflexivity |].
  destruct (Stories.not_older dateutil_parse x y); [reflexivity |].
  rewrite IH. apply Permutation_swap.
Qed.

Lemma sort_desc_perm (l : list Document) :
  foldr (Stories.insert_desc dateutil_parse) [] l ≡ₚ l.
Proof.
  induction l as [| x l IH]; [reflexivity |].
  cbn [foldr]. rewrite insert_desc_perm, IH. reflexivity.
Qed.

Lemma insert_desc_sorted (k : option Stories.datetime) (x : Document)
    (l : list Document) :
  Stories.comparable k (parse_date x) = true ->
  Forall (fun z => Stories.comparable k (parse_date z) = true) l ->
  StronglySorted (fun a b => not_older a b = true) l ->
  StronglySorted (fun a b => not_older a b = true)
    (Stories.insert_desc dateutil_parse x l).
Proof.
  intros Hx Hall Hsorted.
  induction Hsorted as [| y l Hsorted IH Hy]; cbn [Stories.insert_desc].
  - repeat constructor.
  - apply Forall_cons in Hall as [Hky Hall].
    destruct (Stories.not_older dateutil_parse x y) eqn:E.
    + constructor; [constructor; assumption |].
      constructor; [exact E |].
      rewrite Forall_forall in Hy, Hall |- *. intros z Hz.
      eapply (not_older_trans k x y z); auto.
    + constructor; [apply IH, Hall |].
      rewrite insert_desc_perm. constructor; [| exact Hy].
      apply not_older_total, E.
Qed.

Lemma sort_desc_sorted (k : option Stories.datetime) (l : list Document) :
  Forall (fun z => Stories.comparable k (parse_date z) = true) l ->
  StronglySorted (fun a b => not_older a b = true)
    (foldr (Stories.insert_desc dateutil_parse) [] l).
Proof.
  induction 1 as [| x l Hx Hall IH]; [constructor |].
  cbn [foldr]. apply (insert_desc_sorted k); [exact Hx | | exact IH].
  rewrite sort_desc_perm. exact Hall.
Qed.

Lemma sort_desc_undated (l : list Document) :
  Forall (fun z => parse_date z = None) l ->
  foldr (Stories.insert_desc dateutil_parse) [] l = l.
Proof.
  induction 1 as [| x l Hx Hall IH]; [reflexivity |].
  cbn [foldr]. rewrite IH. destruct l as [| y l]; [reflexivity |].
  cbn [Stories.insert_desc]. unfold Stories.not_older.
  unfold parse_date in Hx. rewrite Hx. reflexivity.
Qed.

(** X19.  The order of the stories.  When the sort succeeds the answer holds the
    same items, no item in front of a newer one.  When no item has a date
    that can be read, the items stay in the order of the feeds.  And the
    request fails with [TypeError] as soon as two items have keys that cannot
    be compared: one has a readable date and the other has none, or one date
    has a time zone and the other has not. *)
Theorem get_all_stories_order (feeds : list Stories.Feed) :
  let items := Stories.all_items fetch feeds in
  (forall sorted,
     Stories.get_all_stories fetch dateutil_parse feeds = Stories.Items sorted ->
     sorted ≡ₚ items /\
     StronglySorted (fun a b => not_older a b = true) sorted) /\
  (Forall (fun z => parse_date z = None) items ->
   Stories.get_all_stories fetch dateutil_parse feeds = Stories.Items items) /\
  (forall x y, x ∈ items -> y ∈ items ->
     Stories.comparable (parse_date x) (parse_date y) = false ->
     Stories.get_all_stories fetch dateutil_parse feeds = Stories.TypeError).
Proof.
  intros items. unfold Stories.get_all_stories. fold items.
  clearbody items. destruct items as [| first others].
  { split; [intros sorted [= <-]; split; [reflexivity | constructor] |].
    split; [reflexivity |]. intros x y Hx. inversion Hx. }
  set (items := first :: others).
  change (Stories.sort_reverse dateutil_parse items)
    with (if forallb (Stories.comparable (parse_date first)) (map parse_date others)
          then Stories.Items (foldr (Stories.insert_desc dateutil_parse) [] items)
          else Stories.TypeError).
  destruct (forallb (Stories.comparable (parse_date first)) (map parse_date others))
    eqn:Hhom.
  - assert (Hall : Forall (fun z => Stories.comparable (parse_date first)
                                       (parse_date z) = true) items).
    { constructor.
      - destruct (parse_date first) as [a |]; cbn; [apply eqb_reflx | reflexivity].
      - rewrite forallb_forall in Hhom. apply Forall_forall. intros z Hz.
        apply Hhom, in_map, list_elem_of_In, Hz. }
    split; [| split].
    + intros sorted [= <-]. split; [exact (sort_desc_perm items) |].
      exact (sort_desc_sorted (parse_date first) items Hall).
    + intros Hnone. rewrite (sort_desc_undated items Hnone). reflexivity.
    + intros x y Hx Hy Hxy. exfalso.
      rewrite Forall_forall in Hall.
      rewrite (comparable_trans _ _ _ (Hall x Hx) (Hall y Hy)) in Hxy.
      discriminate.
  - split; [intros sorted [=] |]. split; [| reflexivity].
    intros Hnone. exfalso.
    apply Forall_cons in Hnone as [H1 Hrest].
    assert (forallb (Stories.comparable (parse_date first)) (map parse_date others)
            = true) as Htrue; [| congruence].
    apply forallb_forall. intros k Hk. apply in_map_iff in Hk as (z & <- & Hz).
    rewrite Forall_forall in Hrest.
    rewrite H1, (Hrest z) by (apply list_elem_of_In, Hz). reflexivity.
Qed.

End StoriesProperties.

Lemma get_all_stories_order_witness :
  Stories.get_all_stories SampleFeeds.fetch SampleFeeds.dateutil_parse
    [SampleFeeds.down; SampleFeeds.news] = Stories.TypeError.
Proof.
  destruct (get_all_stories_order SampleFeeds.fetch SampleFeeds.dateutil_parse
              [SampleFeeds.down; SampleFeeds.news]) as (_ & _ & H).
  apply (H (Stories.item_of SampleFeeds.news SampleFeeds.dated)
           (Stories.item_of SampleFeeds.news SampleFeeds.undated)).
  - apply list_elem_of_here.
  - apply list_elem_of_further, list_elem_of_here.
  - reflexivity.
Defined.

Example stories_of_dated_feed :
  Stories.get_all_stories
    (fun _ => Stories.Parsed [SampleFeeds.dated]) SampleFeeds.dateutil_parse
    [SampleFeeds.down]
  = Stories.Items
      [<["title" := PStr "Dated"]>
       (<["link" := PNone]>
       (<["published" := PStr "2024-05-01T10:00:00Z"]>
       (<["summary" := PNone]>
       (<["feed_title" := PStr "https://down.example/rss"]> ∅))))].
Proof. reflexivity. Qed.
